(** * keycloak_realm: reconciliation of a Keycloak realm

    A shallow embedding of [plugins/modules/identity/keycloak/keycloak_realm.py]
    (functions [sanitize_cr] and [main]) and the properties of its
    reconciliation algorithm.

    Python values are a small JSON-like inductive type (no floats: a realm
    representation has none).  A Python [dict] is an association list in
    insertion order, the order a Python dict iterates in; a well-formed dict
    has pairwise distinct keys ([wf_dict]).  [main] is written in a small
    monad that threads the remote state and the trace of API calls and
    stops at [exit_json], [fail_json] or an exception.  The object store of
    module [Heap] is a stdpp [gmap] from locations to dict objects.

    Part I is the module, part II the vocabulary of the properties and the
    test doubles, part III the properties of the reconciliation, part IV
    further properties of the two functions, part V the agreement of
    Python's [==] with structural equality and, from it, what the
    [changed] flag of an update compares. *)

From Stdlib Require Import List Ascii String ZArith Bool Lia.
From stdpp Require Import base gmap.
Import ListNotations.
Local Open Scope string_scope.
Local Open Scope list_scope.
Set Warnings "-register-all".

(** * Part I: the module *)

(** ** Values *)

Inductive val : Type :=
| VNone
| VBool (b : bool)
| VInt (z : Z)
| VStr (s : string)
| VList (l : list val)
| VDict (d : list (string * val)).

Abbreviation dict := (list (string * val)).

(** Exceptions the module can die with. *)
Inductive exn : Type :=
| TypeError
| AttributeError
| KeyError (k : string).

(** ** Dict operations

    They are written once for any type of values: the values of a dict are
    [val]s here and references in section [Heap]. *)

Section DictOps.
Context {V : Type}.
Implicit Types (d cs : list (string * V)) (k : string) (v : V).

(** [d.get(k)] as an option; the first binding of [k]. *)
Fixpoint dict_get k d : option V :=
  match d with
  | [] => None
  | (k', v) :: d' => if String.eqb k k' then Some v else dict_get k d'
  end.

(** [k in d] *)
Definition dict_in k d : bool :=
  match dict_get k d with Some _ => true | None => false end.

(** [d[k] = v]: an existing key keeps its position, a new key goes last. *)
Fixpoint dict_set k v d : list (string * V) :=
  match d with
  | [] => [(k, v)]
  | (k', v') :: d' =>
      if String.eqb k k' then (k, v) :: d' else (k', v') :: dict_set k v d'
  end.

(** [d.update(cs)] *)
Definition dict_update d cs : list (string * V) :=
  fold_left (fun acc kv => dict_set (fst kv) (snd kv) acc) cs d.

Definition keys d : list string := map fst d.

(** Distinct keys: the invariant of every Python dict. *)
Definition wf_dict d : Prop := NoDup (keys d).
End DictOps.

(** [d.get(k)] with Python's default [None]. *)
Definition params_get (k : string) (d : dict) : val :=
  match dict_get k d with Some v => v | None => VNone end.

Definition is_none (v : val) : bool :=
  match v with VNone => true | _ => false end.

(** ** Python equality [==] on values

    Booleans compare equal to the integers 0 and 1; lists compare
    elementwise; dicts compare by key set and per-key value, whatever the
    insertion order. *)
Fixpoint py_eq (a b : val) {struct a} : bool :=
  match a, b with
  | VNone, VNone => true
  | VBool x, VBool y => Bool.eqb x y
  | VBool x, VInt y => Z.eqb (Z.b2z x) y
  | VInt x, VBool y => Z.eqb x (Z.b2z y)
  | VInt x, VInt y => Z.eqb x y
  | VStr x, VStr y => String.eqb x y
  | VList l1, VList l2 =>
      (fix go (l1 l2 : list val) {struct l1} : bool :=
         match l1, l2 with
         | [], [] => true
         | x :: l1', y :: l2' => py_eq x y && go l1' l2'
         | _, _ => false
         end) l1 l2
  | VDict d1, VDict d2 =>
      Nat.eqb (length d1) (length d2) &&
      (fix all (d : list (string * val)) {struct d} : bool :=
         match d with
         | [] => true
         | (k, v) :: d' =>
             match dict_get k d2 with
             | Some v' => py_eq v v'
             | None => false
             end && all d'
         end) d1
  | _, _ => false
  end.

(** [d1 == d2] on dicts. *)
Definition dict_eq (d1 d2 : dict) : bool := py_eq (VDict d1) (VDict d2).

(** [s1 in s2] on strings: substring test. *)
Definition str_contains (s1 s2 : string) : bool :=
  match String.index 0 s1 s2 with Some _ => true | None => false end.

(** [k in c] for a string [k] and an arbitrary container value [c]. *)
Definition py_in (k : string) (c : val) : exn + bool :=
  match c with
  | VDict a => inr (dict_in k a)
  | VList l => inr (existsb (py_eq (VStr k)) l)
  | VStr s => inr (str_contains k s)
  | VNone | VBool _ | VInt _ => inl TypeError
  end.

(** ** sanitize_cr *)

Definition redaction : string := "********".
Definition private_key : string := "saml.signing.private.key".

Definition sanitize_cr (realmrep : dict) : exn + dict :=
  let result := realmrep in
  let result :=
    if dict_in "secret" result
    then dict_set "secret" (VStr redaction) result
    else result in
  match dict_get "attributes" result with
  | None => inr result
  | Some attrs =>
      match py_in private_key attrs with
      | inl e => inl e
      | inr false => inr result
      | inr true =>
          match attrs with
          | VDict a =>
              inr (dict_set "attributes"
                     (VDict (dict_set private_key (VStr redaction) a)) result)
          | VStr _ => inl AttributeError
          | _ => inl TypeError
          end
      end
  end.

(** ** The module's result and the ways it ends *)

Record result : Type := mkResult {
  changed : bool;
  msg : string;
  diff : dict;
  proposed : dict;
  existing : dict;
  end_state : dict
}.

Definition set_changed (b : bool) (r : result) : result :=
  mkResult b (msg r) (diff r) (proposed r) (existing r) (end_state r).
Definition set_msg (m : string) (r : result) : result :=
  mkResult (changed r) m (diff r) (proposed r) (existing r) (end_state r).
Definition set_diff (d : dict) (r : result) : result :=
  mkResult (changed r) (msg r) d (proposed r) (existing r) (end_state r).
Definition set_proposed (d : dict) (r : result) : result :=
  mkResult (changed r) (msg r) (diff r) d (existing r) (end_state r).
Definition set_existing (d : dict) (r : result) : result :=
  mkResult (changed r) (msg r) (diff r) (proposed r) d (end_state r).
Definition set_end_state (d : dict) (r : result) : result :=
  mkResult (changed r) (msg r) (diff r) (proposed r) (existing r) d.

(** [module.exit_json] with the result, [module.fail_json] with a message, or an
    uncaught exception. *)
Inductive outcome : Type :=
| ExitJson (r : result)
| FailJson (m : string)
| Raise (e : exn).

(** ** Collaborators

    [KeycloakAPI], [get_token], [camel] and [keycloak_argument_spec] are
    imported from [module_utils.identity.keycloak.keycloak]; the module only
    calls them.  They are taken as parameters: the remote system is a state
    of type [remote], a call either succeeds or ends the module through
    [fail_json] with a message. *)

Inductive api_res (A : Type) : Type :=
| ApiOk (a : A)
| ApiFail (m : string).
Arguments ApiOk {A} a.
Arguments ApiFail {A} m.

Record collaborators : Type := mkCollab {
  remote : Type;
  conn : Type;
  (** [get_token(module.params)]: a connection header, or the text of the
      [KeycloakError]. *)
  get_token : dict -> string + conn;
  (** [kc.get_realm_by_id(realm)]: the representation, or [None]. *)
  get_realm_by_id : conn -> val -> remote -> api_res (option dict);
  create_realm : conn -> dict -> remote -> api_res remote;
  update_realm : conn -> dict -> val -> remote -> api_res remote;
  delete_realm : conn -> val -> remote -> api_res remote;
  (** [camel(name)] *)
  camel : string -> string;
  (** [keycloak_argument_spec().keys()] *)
  keycloak_argument_spec : list string;
  (** ['%s' % v] *)
  str_of : val -> string
}.

(** The calls made on the API client, in the order they are made. *)
Inductive call : Type :=
| CallGet (realm : val)
| CallCreate (rep : dict)
| CallUpdate (rep : dict) (realm : val)
| CallDelete (realm : val).

Definition mutating (c : call) : bool :=
  match c with CallGet _ => false | _ => true end.

(** ** A monad for [main]: remote state, call trace, early exit *)

Module Run.

Inductive step (A : Type) : Type :=
| Next (a : A)
| Halt (o : outcome).
Arguments Next {A} a.
Arguments Halt {A} o.

Section Monad.
Context (E : collaborators).

Definition world : Type := remote E * list call.

Definition M (A : Type) : Type := world -> step A * world.

Definition ret {A} (a : A) : M A := fun w => (Next a, w).

Definition bind {A B} (m : M A) (k : A -> M B) : M B :=
  fun w =>
    match m w with
    | (Next a, w') => k a w'
    | (Halt o, w') => (Halt o, w')
    end.

Definition halt {A} (o : outcome) : M A := fun w => (Halt o, w).

Definition exit_json {A} (r : result) : M A := halt (ExitJson r).
Definition fail_json {A} (m : string) : M A := halt (FailJson m).

(** A computation that may raise. *)
Definition try {A} (x : exn + A) : M A :=
  match x with
  | inl e => halt (Raise e)
  | inr a => ret a
  end.

(** [d[k]] *)
Definition getitem (d : dict) (k : string) : M val :=
  match dict_get k d with
  | Some v => ret v
  | None => halt (Raise (KeyError k))
  end.

Definition kc_get_realm_by_id (c : conn E) (realm : val) : M (option dict) :=
  fun w =>
    let w' := (fst w, snd w ++ [CallGet realm]) in
    match get_realm_by_id E c realm (fst w) with
    | ApiOk r => (Next r, w')
    | ApiFail m => (Halt (FailJson m), w')
    end.

Definition mutate (what : call) (f : remote E -> api_res (remote E)) : M unit :=
  fun w =>
    match f (fst w) with
    | ApiOk s' => (Next tt, (s', snd w ++ [what]))
    | ApiFail m => (Halt (FailJson m), (fst w, snd w ++ [what]))
    end.

Definition kc_create_realm (c : conn E) (rep : dict) : M unit :=
  mutate (CallCreate rep) (create_realm E c rep).
Definition kc_update_realm (c : conn E) (rep : dict) (realm : val) : M unit :=
  mutate (CallUpdate rep realm) (update_realm E c rep realm).
Definition kc_delete_realm (c : conn E) (realm : val) : M unit :=
  mutate (CallDelete realm) (delete_realm E c realm).
End Monad.

Arguments ret {E A} a.
Arguments bind {E A B} m k.
Arguments halt {E A} o.
Arguments exit_json {E A} r.
Arguments fail_json {E A} m.
Arguments try {E A} x.
Arguments getitem {E} d k.
Arguments kc_get_realm_by_id {E} c realm.
Arguments kc_create_realm {E} c rep.
Arguments kc_update_realm {E} c rep realm.
Arguments kc_delete_realm {E} c realm.

End Run.

Import Run.

Declare Scope run_scope.
Delimit Scope run_scope with run.
Notation "x <- m ;; k" := (bind m (fun x => k))
  (at level 100, m at next level, right associativity) : run_scope.
Notation "m ;;; k" := (bind m (fun _ => k))
  (at level 100, right associativity) : run_scope.

(** ** main *)

(** [sanitize_cr(after_realm)] where [after_realm] was just fetched and may
    be [None], which has no [copy]. *)
Definition sanitize_fetched (after_realm : option dict) : exn + dict :=
  match after_realm with
  | Some a => sanitize_cr a
  | None => inl AttributeError
  end.

(** [before_realm == after_realm] where [after_realm] may be [None]. *)
Definition eq_fetched (before_realm : dict) (after_realm : option dict) : bool :=
  match after_realm with
  | Some a => dict_eq before_realm a
  | None => false
  end.

(** The argument of [required_one_of] in the [AnsibleModule] call. *)
Definition required_one_of : list (list string) :=
  [["id"; "realm"; "enabled"];
   ["token"; "auth_realm"; "auth_username"; "auth_password"]].

Section Main.
Context (E : collaborators).
Local Open Scope run_scope.

Definition params_to_ignore : list string :=
  keycloak_argument_spec E ++ ["state"].

Definition realm_params (params : dict) : list string :=
  List.filter (fun x => negb (existsb (String.eqb x) params_to_ignore)
                        && negb (is_none (params_get x params)))
              (keys params).

Definition build_changeset (params : dict) : dict :=
  fold_left (fun changeset realm_param =>
               dict_set (camel E realm_param)
                        (params_get realm_param params) changeset)
            (realm_params params) [].

Definition created_msg (id : val) : string :=
  "Realm " ++ str_of E id ++ " has been created.".
Definition updated_msg (id : val) : string :=
  "Realm " ++ str_of E id ++ " has been updated.".
Definition deleted_msg (id : val) : string :=
  "Realm " ++ str_of E id ++ " has been deleted.".

Definition main (params : dict) (check_mode _diff : bool) : M E Empty_set :=
  let result := mkResult false "" [] [] [] [] in
  match get_token E params with
  | inl e => fail_json e
  | inr connection_header =>
  let kc := connection_header in
  let realm := params_get "realm" params in
  let state := params_get "state" params in
  before_realm <- kc_get_realm_by_id kc realm ;;
  let before_realm :=
    match before_realm with None => [] | Some d => d end in
  let changeset := build_changeset params in
  let desired_realm := dict_update before_realm changeset in
  proposed_sanitized <- try (sanitize_cr changeset) ;;
  let result := set_proposed proposed_sanitized result in
  before_realm_sanitized <- try (sanitize_cr before_realm) ;;
  let result := set_existing before_realm_sanitized result in
  match before_realm with
  | [] =>
      if py_eq state (VStr "absent") then
        let result :=
          if _diff
          then set_diff [("before", VStr ""); ("after", VStr "")] result
          else result in
        let result := set_changed false result in
        let result := set_end_state [] result in
        let result := set_msg "Realm does not exist, doing nothing." result in
        exit_json result
      else
        let result := set_changed true result in
        if negb (dict_in "id" desired_realm) then
          fail_json "id needs to be specified when creating a new realm"
        else
        result <-
          (if _diff then
             after <- try (sanitize_cr desired_realm) ;;
             ret (set_diff [("before", VStr ""); ("after", VDict after)] result)
           else ret result) ;;
        if check_mode then exit_json result else
        kc_create_realm kc desired_realm ;;;
        id <- getitem desired_realm "id" ;;
        after_realm <- kc_get_realm_by_id kc id ;;
        end_state_sanitized <- try (sanitize_fetched after_realm) ;;
        let result := set_end_state end_state_sanitized result in
        id <- getitem desired_realm "id" ;;
        let result := set_msg (created_msg id) result in
        exit_json result
  | _ :: _ =>
      if py_eq state (VStr "present") then
        let result := set_changed true result in
        if check_mode then
          result <-
            (if _diff then
               after <- try (sanitize_cr desired_realm) ;;
               ret (set_diff [("before", VDict before_realm_sanitized);
                              ("after", VDict after)] result)
             else ret result) ;;
          let result :=
            set_changed (negb (dict_eq before_realm desired_realm)) result in
          exit_json result
        else
        kc_update_realm kc desired_realm realm ;;;
        after_realm <- kc_get_realm_by_id kc realm ;;
        let result :=
          if eq_fetched before_realm after_realm
          then set_changed false result
          else result in
        end_state_sanitized <- try (sanitize_fetched after_realm) ;;
        let result := set_end_state end_state_sanitized result in
        result <-
          (if _diff then
             after <- try (sanitize_fetched after_realm) ;;
             ret (set_diff [("before", VDict before_realm_sanitized);
                            ("after", VDict after)] result)
           else ret result) ;;
        id <- getitem desired_realm "id" ;;
        let result := set_msg (updated_msg id) result in
        exit_json result
      else
        let result := set_changed true result in
        let result :=
          if _diff
          then set_diff [("before", VDict before_realm_sanitized);
                         ("after", VStr "")] result
          else result in
        if check_mode then exit_json result else
        kc_delete_realm kc realm ;;;
        let result := set_proposed [] result in
        let result := set_end_state [] result in
        id <- getitem before_realm "id" ;;
        let result := set_msg (deleted_msg id) result in
        exit_json result
  end
  end.

(** One invocation of the module against the remote state [s]: how it
    ends, the remote state it leaves, and the calls it made. *)
Definition run (params : dict) (check_mode _diff : bool) (s : remote E)
  : outcome * remote E * list call :=
  match main params check_mode _diff (s, []) with
  | (Halt o, (s', tr)) => (o, s', tr)
  | (Next a, _) => match a with end
  end.

Definition outcome_of (x : outcome * remote E * list call) : outcome :=
  fst (fst x).
Definition remote_of (x : outcome * remote E * list call) : remote E :=
  snd (fst x).
Definition calls_of (x : outcome * remote E * list call) : list call :=
  snd x.
End Main.

Arguments outcome_of {E} x.
Arguments remote_of {E} x.
Arguments calls_of {E} x.

(** ** The precondition check on the parameters

    [AnsibleModule] (a library outside this repository) checks
    [required_one_of] and [required_together] against the parameters the
    caller supplied, before the options left out are filled in with [None]:
    a [required_one_of] group passes when at least one of its names is a key
    of the supplied parameters, a [required_together] group when all of its
    names are keys or none is. *)

(** The argument of [required_together] in the [AnsibleModule] call. *)
Definition required_together : list (list string) :=
  [["auth_realm"; "auth_username"; "auth_password"]].

(** [count_terms(terms, parameters)]: how many of the names are supplied. *)
Definition count_terms (terms : list string) (parameters : dict) : nat :=
  length (List.filter (fun t => dict_in t parameters) terms).

(** [check_required_one_of(terms, parameters)]: the groups of which nothing
    is supplied; the module fails when there is one. *)
Definition check_required_one_of (terms : list (list string))
    (parameters : dict) : list (list string) :=
  List.filter (fun term => Nat.eqb (count_terms term parameters) 0) terms.

(** [check_required_together(terms, parameters)]: the groups of which some
    names are supplied and some are not. *)
Definition check_required_together (terms : list (list string))
    (parameters : dict) : list (list string) :=
  List.filter
    (fun term =>
       let counts := map (fun field => count_terms [field] parameters) term in
       existsb (fun c => Nat.ltb 0 c) counts
       && existsb (fun c => Nat.eqb c 0) counts)
    terms.

Definition is_nil {A : Type} (l : list A) : bool :=
  match l with [] => true | _ :: _ => false end.

(** The parameters get through both checks. *)
Definition passes_preconditions (parameters : dict) : bool :=
  is_nil (check_required_together required_together parameters)
  && is_nil (check_required_one_of required_one_of parameters).

(** ** sanitize_cr on an object store

    Python dicts are objects: [realmrep.copy()] allocates a new dict whose
    entries still refer to the same nested objects.  Here dict objects live
    in a store; an entry holds an immutable value or a reference to another
    dict object.  This is [sanitize_cr] again, statement by statement. *)

Module Heap.

Definition loc : Type := positive.

Inductive hval : Type :=
| Imm (v : val)
| Ref (l : loc).

Abbreviation obj := (list (string * hval)).
Abbreviation heap := (gmap loc obj).

Definition alloc (o : obj) (h : heap) : loc * heap :=
  let l := fresh (dom h) in (l, <[l := o]> h).

(** [l.copy()] *)
Definition copy (l : loc) (h : heap) : option (loc * heap) :=
  match h !! l with
  | Some o => Some (alloc o h)
  | None => None
  end.

(** [l[k] = v] *)
Definition setitem (l : loc) (k : string) (v : hval) (h : heap) : heap :=
  alter (dict_set k v) l h.

(** [k in l] *)
Definition has (l : loc) (k : string) (h : heap) : bool :=
  match h !! l with
  | Some o => dict_in k o
  | None => false
  end.

(** [l.get(k)] *)
Definition getitem (l : loc) (k : string) (h : heap) : option hval :=
  match h !! l with
  | Some o => dict_get k o
  | None => None
  end.

(** [None] stands for following a reference to no object, which a store
    built by the program never asks for. *)
Definition sanitize_cr (realmrep : loc) (h : heap)
  : option ((exn + loc) * heap) :=
  match copy realmrep h with
  | None => None
  | Some (result, h) =>
      let h :=
        if has result "secret" h
        then setitem result "secret" (Imm (VStr redaction)) h
        else h in
      match getitem result "attributes" h with
      | None => Some (inr result, h)
      | Some (Ref attrs) =>
          if has attrs private_key h then
            match copy attrs h with
            | None => None
            | Some (attrs', h) =>
                let h := setitem result "attributes" (Ref attrs') h in
                let h := setitem attrs' private_key (Imm (VStr redaction)) h in
                Some (inr result, h)
            end
          else Some (inr result, h)
      | Some (Imm attrs) =>
          match py_in private_key attrs with
          | inl e => Some (inl e, h)
          | inr false => Some (inr result, h)
          | inr true =>
              match attrs with
              | VDict a =>
                  Some (inr result,
                        setitem result "attributes"
                          (Imm (VDict (dict_set private_key
                                         (VStr redaction) a))) h)
              | VStr _ => Some (inl AttributeError, h)
              | _ => Some (inl TypeError, h)
              end
          end
      end
  end.

(** Every object of [h] is in [h'] as it was. *)
Definition preserved (h h' : heap) : Prop :=
  forall l o, h !! l = Some o -> h' !! l = Some o.

(** *** Reading a value out of the store *)

Fixpoint reify_entries (f : hval -> option val) (o : obj) : option dict :=
  match o with
  | [] => Some []
  | (k, v) :: o' =>
      match f v, reify_entries f o' with
      | Some x, Some d => Some ((k, x) :: d)
      | _, _ => None
      end
  end.

(** The value behind [v], following references at most [n] deep. *)
Fixpoint reify (n : nat) (h : heap) (v : hval) : option val :=
  match v with
  | Imm x => Some x
  | Ref l =>
      match n with
      | O => None
      | S n' =>
          match h !! l with
          | Some o => option_map VDict (reify_entries (reify n' h) o)
          | None => None
          end
      end
  end.

End Heap.

(** * Part II: vocabulary of the properties *)

(** The loop of [main] that fills [changeset], from any starting dict. *)
Definition fill (E : collaborators) (params : dict) (ps : list string)
    (acc : dict) : dict :=
  fold_left (fun changeset realm_param =>
               dict_set (camel E realm_param)
                        (params_get realm_param params) changeset) ps acc.

Definition reads_only (tr : list call) : bool :=
  forallb (fun c => negb (mutating c)) tr.

(** [m] leaves the remote state as it is and adds only fetches to the
    trace. *)
Definition quiet (E : collaborators) {A} (m : M E A) : Prop :=
  forall s tr, exists tr',
    snd (m (s, tr)) = (s, tr ++ tr') /\ reads_only tr' = true.

(** The first step of [sanitize_cr], on the copy. *)
Definition redact_secret (d : dict) : dict :=
  if dict_in "secret" d then dict_set "secret" (VStr redaction) d else d.

(** Whether [sanitize_cr] gets through the ["attributes"] entry it finds. *)
Definition attrs_safe (o : option val) : bool :=
  match o with
  | None => true
  | Some attrs =>
      match py_in private_key attrs with
      | inl _ => false
      | inr false => true
      | inr true => match attrs with VDict _ => true | _ => false end
      end
  end.

(** ["attributes"], when present, is a mapping: what the argument spec
    ([type='dict']) and the realm representation of the server give. *)
Definition attributes_ok (d : dict) : bool :=
  match dict_get "attributes" d with
  | None | Some (VDict _) => true
  | Some _ => false
  end.

(** No secret is readable in [d]. *)
Definition redacted (d : dict) : bool :=
  match dict_get "secret" d with
  | Some v => py_eq v (VStr redaction)
  | None => true
  end
  &&
  match dict_get "attributes" d with
  | Some (VDict a) =>
      match dict_get private_key a with
      | Some v => py_eq v (VStr redaction)
      | None => true
      end
  | _ => true
  end.

(** [x] is what [sanitize_cr] returned for some representation. *)
Definition sanitized (x : dict) : Prop :=
  exists raw, sanitize_cr raw = inr x.

(** Every representation in the result, the two sides of [diff] included,
    has gone through [sanitize_cr]. *)
Definition result_sanitized (r : result) : Prop :=
  sanitized (proposed r)
  /\ sanitized (existing r)
  /\ sanitized (end_state r)
  /\ (forall k x, dict_get k (diff r) = Some (VDict x) -> sanitized x).

(** The [changed] flag a run reports, if it exits normally. *)
Definition reported_changed (o : outcome) : option bool :=
  match o with
  | ExitJson r => Some (changed r)
  | _ => None
  end.

(** The remote system persists writes made in state [s]: creating a
    representation that has an id succeeds and a fetch of that id returns
    it; updating or deleting a realm that exists succeeds, and a fetch
    after the update returns what was written. *)
Definition persists (E : collaborators) (c : conn E) (s : remote E) : Prop :=
  (forall rep id,
     dict_get "id" rep = Some id ->
     exists s', create_realm E c rep s = ApiOk s'
                /\ get_realm_by_id E c id s' = ApiOk (Some rep))
  /\ (forall rep realm b,
        get_realm_by_id E c realm s = ApiOk (Some b) ->
        exists s', update_realm E c rep realm s = ApiOk s'
                   /\ get_realm_by_id E c realm s' = ApiOk (Some rep))
  /\ (forall realm b,
        get_realm_by_id E c realm s = ApiOk (Some b) ->
        exists s', delete_realm E c realm s = ApiOk s').

(** A realm representation held by the remote system carries its ["id"]. *)
Definition identified (E : collaborators) (c : conn E) (s : remote E) : Prop :=
  forall realm b,
    get_realm_by_id E c realm s = ApiOk (Some b) -> b <> [] ->
    dict_in "id" b = true.

(** ** A test double for the collaborators

    A server that stores realm representations under their name and
    persists every write; it is used to run [main] on concrete inputs. *)

Module Demo.

Definition upcase (c : ascii) : ascii :=
  let n := Ascii.nat_of_ascii c in
  if (97 <=? n)%nat && (n <=? 122)%nat then Ascii.ascii_of_nat (n - 32) else c.

(** Modelled from the spec: [camel] of [module_utils], which is not among
    the sources; the spec describes it as the transform from
    underscore-separated to camel-case names. *)
Fixpoint camel (s : string) : string :=
  match s with
  | EmptyString => EmptyString
  | String c s' =>
      if Ascii.eqb c "_"%char then
        match s' with
        | EmptyString => EmptyString
        | String c' s'' => String (upcase c') (camel s'')
        end
      else String c (camel s')
  end.

Definition name_of (realm : val) : string :=
  match realm with
  | VStr s => s
  | _ => "None"
  end.

Definition fetch (realm : val) (s : dict) : option dict :=
  match dict_get (name_of realm) s with
  | Some (VDict d) => Some d
  | _ => None
  end.

Definition store (realm : val) (rep : dict) (s : dict) : dict :=
  dict_set (name_of realm) (VDict rep) s.

Definition remove (realm : val) (s : dict) : dict :=
  List.filter (fun kv => negb (String.eqb (fst kv) (name_of realm))) s.

Definition env : collaborators :=
  mkCollab dict unit
    (fun _ => inr tt)
    (fun _ realm s => ApiOk (fetch realm s))
    (fun _ rep s => ApiOk (store (params_get "id" rep) rep s))
    (fun _ rep realm s => ApiOk (store realm rep s))
    (fun _ realm s => ApiOk (remove realm s))
    camel
    ["auth_keycloak_url"; "auth_client_id"; "auth_realm";
     "auth_client_secret"; "auth_username"; "auth_password";
     "validate_certs"; "token"]
    name_of.

(** Module parameters as [AnsibleModule] hands them over: every option of
    the argument spec is a key, the ones not supplied are [None]. *)
Definition params (id realm : val) (state : string) (more : dict) : dict :=
  [("auth_keycloak_url", VStr "https://auth.example.com/auth");
   ("auth_client_id", VStr "admin-cli");
   ("auth_realm", VStr "master");
   ("auth_client_secret", VNone);
   ("auth_username", VStr "USERNAME");
   ("auth_password", VStr "PASSWORD");
   ("validate_certs", VBool true);
   ("token", VNone);
   ("state", VStr state);
   ("id", id);
   ("realm", realm);
   ("display_name", VNone)] ++ more.

Definition test_realm : dict :=
  [("id", VStr "test"); ("realm", VStr "test"); ("enabled", VBool true)].

Definition server : dict := [("test", VDict test_realm)].

End Demo.

Module SamlDemo.

(** A realm whose attributes hold a private key, and parameters that
    replace the key. *)
Definition realm : dict :=
  [("id", VStr "test"); ("realm", VStr "test");
   ("attributes", VDict [(private_key, VStr "OLD")])].

Definition server : dict := [("test", VDict realm)].

Definition params : dict :=
  Demo.params (VStr "test") (VStr "test") "present"
              [("attributes", VDict [(private_key, VStr "NEW")])].

End SamlDemo.

(** A realm representation and a second dict that share one attributes
    object: after [sanitize_cr] both still read the key as it was, and the
    returned copy reads it redacted. *)
Definition shared_store : gmap Heap.loc (list (string * Heap.hval)) :=
  {[ 1%positive := [("id", Heap.Imm (VStr "r"));
                    ("attributes", Heap.Ref 2%positive)];
     2%positive := [(private_key, Heap.Imm (VStr "KEY"))];
     3%positive := [("attributes", Heap.Ref 2%positive)] ]}.

(** ** Further vocabulary and test doubles *)

(** No name occurs twice. *)
Fixpoint distinct (l : list string) : bool :=
  match l with
  | [] => true
  | k :: l' => negb (existsb (String.eqb k) l') && distinct l'
  end.

(** A value as JSON or the argument spec gives it: at every depth the keys
    of a dict are distinct. *)
Fixpoint wf_val (v : val) : bool :=
  match v with
  | VList l => forallb wf_val l
  | VDict d => distinct (map fst d) && forallb (fun kv => wf_val (snd kv)) d
  | _ => true
  end.

(** The per-key half of [d1 == d2]: every entry of [d1] has an equal one in
    [d2]. *)
Definition entries_match (d2 d1 : dict) : bool :=
  forallb (fun kv => match dict_get (fst kv) d2 with
                     | Some v' => py_eq (snd kv) v'
                     | None => false
                     end) d1.

(** Structural equality of two representations, following the spec's
    wording (mapping equality; nested mappings and lists compared by
    value): scalars by value, where Python counts [True] and [1], [False]
    and [0] as the same value; lists element by element; mappings key by
    key, a key being in both or in neither and the two values under it
    structurally equal.  Insertion order plays no part. *)
Inductive structurally_equal : val -> val -> Prop :=
| se_none : structurally_equal VNone VNone
| se_bool b : structurally_equal (VBool b) (VBool b)
| se_int z : structurally_equal (VInt z) (VInt z)
| se_bool_int b : structurally_equal (VBool b) (VInt (Z.b2z b))
| se_int_bool b : structurally_equal (VInt (Z.b2z b)) (VBool b)
| se_str s : structurally_equal (VStr s) (VStr s)
| se_list l1 l2 :
    Forall2 structurally_equal l1 l2 ->
    structurally_equal (VList l1) (VList l2)
| se_dict d1 d2 :
    (forall k,
       (dict_get k d1 = None /\ dict_get k d2 = None)
       \/ (exists v w, dict_get k d1 = Some v /\ dict_get k d2 = Some w
                       /\ structurally_equal v w)) ->
    structurally_equal (VDict d1) (VDict d2).

(** The traces a run of [main] with these parameters can leave. *)
Definition trace_shape (E : collaborators) (params : dict) (tr : list call)
  : Prop :=
  let realm := params_get "realm" params in
  tr = []
  \/ tr = [CallGet realm]
  \/ (exists desired, tr = [CallGet realm; CallCreate desired])
  \/ (exists desired id,
        dict_get "id" desired = Some id
        /\ tr = [CallGet realm; CallCreate desired; CallGet id])
  \/ (exists desired, tr = [CallGet realm; CallUpdate desired realm])
  \/ (exists desired,
        tr = [CallGet realm; CallUpdate desired realm; CallGet realm])
  \/ tr = [CallGet realm; CallDelete realm].

(** Test doubles with faults. *)
Module Faulty.

(** A server that answers every write with success and keeps nothing: a
    created realm is not stored, an updated realm is gone afterwards. *)
Definition lossy : collaborators :=
  mkCollab dict unit
    (fun _ => inr tt)
    (fun _ realm s => ApiOk (Demo.fetch realm s))
    (fun _ rep s => ApiOk s)
    (fun _ rep realm s => ApiOk (Demo.remove realm s))
    (fun _ realm s => ApiOk (Demo.remove realm s))
    Demo.camel
    (keycloak_argument_spec Demo.env)
    Demo.name_of.

(** A server that hands out no token. *)
Definition no_token : collaborators :=
  mkCollab dict unit
    (fun _ => inl "Could not obtain access token")
    (fun _ realm s => ApiOk (Demo.fetch realm s))
    (fun _ rep s => ApiOk (Demo.store (params_get "id" rep) rep s))
    (fun _ rep realm s => ApiOk (Demo.store realm rep s))
    (fun _ realm s => ApiOk (Demo.remove realm s))
    Demo.camel
    (keycloak_argument_spec Demo.env)
    Demo.name_of.

(** A server that answers an update with success and changes nothing. *)
Definition frozen : collaborators :=
  mkCollab dict unit
    (fun _ => inr tt)
    (fun _ realm s => ApiOk (Demo.fetch realm s))
    (fun _ rep s => ApiOk (Demo.store (params_get "id" rep) rep s))
    (fun _ rep realm s => ApiOk s)
    (fun _ realm s => ApiOk (Demo.remove realm s))
    Demo.camel
    (keycloak_argument_spec Demo.env)
    Demo.name_of.

(** A server whose realm representation has no ["id"]. *)
Definition anonymous_server : dict :=
  [("test", VDict [("realm", VStr "test"); ("enabled", VBool true)])].

End Faulty.

(** ** Running main: tactics *)

Ltac unfold_run :=
  unfold run, outcome_of, remote_of, calls_of, main, exit_json, fail_json,
    getitem, try, kc_get_realm_by_id, kc_update_realm, kc_create_realm,
    kc_delete_realm, sanitize_fetched, eq_fetched in *;
  unfold mutate, bind, ret, halt in *;
  cbn [fst snd] in *.

(** Case analysis on whatever the run inspects next. *)
Ltac split_run H :=
  repeat (match type of H with
          | context [match ?x with _ => _ end] =>
              lazymatch x with
              | context [match _ with _ => _ end] => fail
              | _ => destruct x eqn:?
              end
          end; cbn [fst snd] in H; try discriminate H).

(** Forward evaluation of a run along the equations at hand. *)
Ltac run_forward :=
  unfold_run;
  repeat (cbn [fst snd app negb];
          match goal with
          | H : ?x = _ |- context [match ?x with _ => _ end] => rewrite H
          | H : ?x = _ |- context [if ?x then _ else _] => rewrite H
          | H : ?x = _ |- context [if negb ?x then _ else _] => rewrite H
          end);
  cbn [fst snd app negb].

(** * Part III: properties *)

(** ** The model on concrete inputs *)

Example sanitize_cr_ex :
  sanitize_cr [("id", VStr "r"); ("secret", VStr "s3");
               ("attributes", VDict [(private_key, VStr "KEY"); ("x", VInt 1)])]
  = inr [("id", VStr "r"); ("secret", VStr redaction);
         ("attributes", VDict [(private_key, VStr redaction); ("x", VInt 1)])].
Proof. reflexivity. Qed.

Example camel_ex :
  Demo.camel "access_code_lifespan_login" = "accessCodeLifespanLogin".
Proof. reflexivity. Qed.

Example changeset_ex :
  build_changeset Demo.env
    (Demo.params (VStr "test") (VStr "test") "present"
                 [("sso_session_max_lifespan", VInt 600)])
  = [("id", VStr "test"); ("realm", VStr "test");
     ("ssoSessionMaxLifespan", VInt 600)].
Proof. reflexivity. Qed.

Example run_update_real_ex :
  run Demo.env
    (Demo.params (VStr "test") (VStr "test") "present"
                 [("enabled", VBool false)]) false false Demo.server
  = (ExitJson
       (mkResult true "Realm test has been updated." []
          [("id", VStr "test"); ("realm", VStr "test"); ("enabled", VBool false)]
          Demo.test_realm
          [("id", VStr "test"); ("realm", VStr "test"); ("enabled", VBool false)]),
     [("test", VDict [("id", VStr "test"); ("realm", VStr "test");
                      ("enabled", VBool false)])],
     [CallGet (VStr "test");
      CallUpdate [("id", VStr "test"); ("realm", VStr "test");
                  ("enabled", VBool false)] (VStr "test");
      CallGet (VStr "test")]).
Proof. reflexivity. Qed.

Example run_noop_update_check_ex :
  outcome_of (run Demo.env
    (Demo.params (VStr "test") (VStr "test") "present"
                 [("enabled", VInt 1)]) true false Demo.server)
  = ExitJson
      (mkResult false "" []
         [("id", VStr "test"); ("realm", VStr "test"); ("enabled", VInt 1)]
         Demo.test_realm []).
Proof. reflexivity. Qed.

Example sanitize_cr_shared_ex :
  exists result h',
    Heap.sanitize_cr 1%positive shared_store = Some (inr result, h')
    /\ Heap.reify 2 h' (Heap.Ref 1%positive)
       = Some (VDict [("id", VStr "r");
                      ("attributes", VDict [(private_key, VStr "KEY")])])
    /\ Heap.reify 2 h' (Heap.Ref 3%positive)
       = Some (VDict [("attributes", VDict [(private_key, VStr "KEY")])])
    /\ Heap.reify 2 h' (Heap.Ref result)
       = Some (VDict [("id", VStr "r");
                      ("attributes", VDict [(private_key, VStr redaction)])]).
Proof. eexists _, _. split; [vm_compute; reflexivity|]. vm_compute. auto. Qed.

(** ** Facts about dicts *)

Section DictFacts.
Context {V : Type}.
Implicit Types (d cs : list (string * V)) (k : string) (v : V).

Lemma dict_get_set_eq k v d : dict_get k (dict_set k v d) = Some v.
Proof.
  induction d as [|[k' v'] d IH]; simpl.
  - now rewrite String.eqb_refl.
  - destruct (String.eqb k k') eqn:Hk; simpl; rewrite ?String.eqb_refl, ?Hk; auto.
Qed.

Lemma dict_get_set_ne k k' v d :
  k <> k' -> dict_get k' (dict_set k v d) = dict_get k' d.
Proof.
  intros Hne. induction d as [|[k0 v0] d IH]; simpl.
  - destruct (String.eqb_spec k' k); congruence.
  - destruct (String.eqb_spec k k0) as [->|Hk0]; simpl.
    + destruct (String.eqb_spec k' k0); congruence.
    + now rewrite IH.
Qed.

Lemma dict_get_set k k' v d :
  dict_get k' (dict_set k v d) =
  if String.eqb k' k then Some v else dict_get k' d.
Proof.
  destruct (String.eqb_spec k' k) as [->|Hne].
  - apply dict_get_set_eq.
  - apply dict_get_set_ne; congruence.
Qed.

Lemma dict_in_set k k' v d :
  dict_in k' (dict_set k v d) = String.eqb k' k || dict_in k' d.
Proof.
  unfold dict_in. rewrite dict_get_set.
  now destruct (String.eqb k' k).
Qed.

Lemma dict_get_None k d : dict_get k d = None <-> ~ In k (keys d).
Proof.
  induction d as [|[k' v'] d IH]; simpl.
  - tauto.
  - destruct (String.eqb_spec k k') as [->|Hne].
    + split; [discriminate | tauto].
    + rewrite IH. split; [intros H [?|?]; congruence || tauto | tauto].
Qed.

Lemma dict_in_keys k d : dict_in k d = true <-> In k (keys d).
Proof.
  unfold dict_in. pose proof (dict_get_None k d) as H.
  destruct (dict_get k d).
  - split; [intros _ | reflexivity].
    destruct (in_dec String.string_dec k (keys d)) as [Hin|Hn]; [assumption|].
    apply H in Hn. discriminate.
  - split; [discriminate|]. intros Hin. exfalso. now apply H.
Qed.

Lemma dict_set_fresh k v d :
  ~ In k (keys d) -> dict_set k v d = d ++ [(k, v)].
Proof.
  induction d as [|[k' v'] d IH]; simpl; intros Hn; [reflexivity|].
  destruct (String.eqb_spec k k') as [->|Hne]; [tauto|].
  rewrite IH; tauto.
Qed.

Lemma keys_set_in k v d : In k (keys d) -> keys (dict_set k v d) = keys d.
Proof.
  induction d as [|[k' v'] d IH]; simpl; intros Hin; [tauto|].
  destruct (String.eqb_spec k k') as [->|Hne]; simpl; [reflexivity|].
  f_equal. apply IH. destruct Hin; congruence.
Qed.

Lemma keys_set k v d :
  keys (dict_set k v d) = if dict_in k d then keys d else keys d ++ [k].
Proof.
  destruct (dict_in k d) eqn:Hin.
  - apply keys_set_in, dict_in_keys, Hin.
  - rewrite dict_set_fresh.
    + unfold keys. now rewrite map_app.
    + intros H. apply dict_in_keys in H. congruence.
Qed.

Lemma wf_dict_set k v d : wf_dict d -> wf_dict (dict_set k v d).
Proof.
  unfold wf_dict. intros Hwf. rewrite keys_set.
  destruct (dict_in k d) eqn:Hin; [assumption|].
  apply NoDup_app. split; [assumption|]. split; [|apply NoDup_singleton].
  intros x Hx Hk. apply list_elem_of_In in Hx, Hk.
  destruct Hk as [<-|[]]. apply dict_in_keys in Hx. congruence.
Qed.

Lemma length_dict_set k v d :
  length (dict_set k v d) = if dict_in k d then length d else S (length d).
Proof.
  rewrite <- !(length_map fst). fold (keys (dict_set k v d)) (keys d).
  rewrite keys_set. destruct (dict_in k d); [reflexivity|].
  rewrite length_app. simpl. lia.
Qed.

Lemma dict_update_cons d k v cs :
  dict_update d ((k, v) :: cs) = dict_update (dict_set k v d) cs.
Proof. reflexivity. Qed.

Lemma wf_dict_update d cs : wf_dict d -> wf_dict (dict_update d cs).
Proof.
  revert d. induction cs as [|[k v] cs IH]; intros d Hwf; [assumption|].
  rewrite dict_update_cons. apply IH, wf_dict_set, Hwf.
Qed.

(** Lookup in [d.update(cs)]: the changeset first, then [d]. *)
Lemma dict_get_update k d cs :
  wf_dict cs ->
  dict_get k (dict_update d cs) =
  match dict_get k cs with Some v => Some v | None => dict_get k d end.
Proof.
  revert d. induction cs as [|[k' v'] cs IH]; intros d Hwf; [reflexivity|].
  rewrite dict_update_cons. inversion Hwf as [|? ? Hnotin Hwf']; subst.
  rewrite IH by assumption. simpl.
  destruct (String.eqb_spec k k') as [->|Hne].
  - rewrite list_elem_of_In in Hnotin. apply dict_get_None in Hnotin.
    rewrite Hnotin. apply dict_get_set_eq.
  - destruct (dict_get k cs); [reflexivity|].
    apply dict_get_set_ne; congruence.
Qed.

Lemma dict_in_update k d cs :
  dict_in k (dict_update d cs) = dict_in k cs || dict_in k d.
Proof.
  revert d. induction cs as [|[k' v'] cs IH]; intros d; [reflexivity|].
  rewrite dict_update_cons, IH, dict_in_set. unfold dict_in at 3. simpl.
  destruct (String.eqb k k'); simpl.
  - now rewrite orb_true_r.
  - reflexivity.
Qed.

Lemma dict_update_app d cs :
  wf_dict (d ++ cs) -> dict_update d cs = d ++ cs.
Proof.
  revert d. induction cs as [|[k v] cs IH]; intros d Hwf.
  - now rewrite app_nil_r.
  - rewrite dict_update_cons.
    assert (Hk : ~ In k (keys d)).
    { unfold wf_dict, keys in Hwf. rewrite map_app in Hwf. simpl in Hwf.
      apply NoDup_app in Hwf. destruct Hwf as (_ & Hdisj & _).
      intros Hin. apply (Hdisj k).
      - now apply list_elem_of_In.
      - apply list_elem_of_In. now left. }
    rewrite dict_set_fresh by assumption.
    replace (d ++ (k, v) :: cs) with ((d ++ [(k, v)]) ++ cs) in *
      by (now rewrite <- app_assoc).
    now apply IH.
Qed.

(** Updating the empty dict gives the changeset itself. *)
Lemma dict_update_nil cs : wf_dict cs -> dict_update [] cs = cs.
Proof. intros Hwf. now apply (dict_update_app []). Qed.

Lemma dict_update_nonempty d cs : d <> [] -> dict_update d cs <> [].
Proof.
  revert d. induction cs as [|[k v] cs IH]; intros d Hd; [assumption|].
  rewrite dict_update_cons. apply IH. destruct d as [|[k' v'] d]; simpl.
  - discriminate.
  - destruct (String.eqb k k'); discriminate.
Qed.
End DictFacts.

(** ** The attribute mapper *)

Section Mapper.
Context (E : collaborators).
Implicit Types (params : dict) (ps : list string).

Lemma build_changeset_fill params :
  build_changeset E params = fill E params (realm_params E params) [].
Proof. reflexivity. Qed.

Lemma fill_wf params ps acc : wf_dict acc -> wf_dict (fill E params ps acc).
Proof.
  revert acc. induction ps as [|p ps IH]; intros acc Hwf; simpl; [assumption|].
  apply IH, wf_dict_set, Hwf.
Qed.

Lemma build_changeset_wf params : wf_dict (build_changeset E params).
Proof. apply fill_wf. constructor. Qed.

Lemma fill_in params ps acc k :
  dict_in k (fill E params ps acc) = true <->
  dict_in k acc = true \/ exists x, In x ps /\ camel E x = k.
Proof.
  revert acc. induction ps as [|p ps IH]; intros acc; simpl.
  - split; [now left | intros [H|(x & [] & _)]; exact H].
  - rewrite IH, dict_in_set. split.
    + intros [H|(x & Hx & Hk)].
      * apply orb_true_iff in H. destruct H as [H|H]; [|now left].
        apply String.eqb_eq in H. right. exists p. split; [now left | congruence].
      * right. exists x. split; [now right | assumption].
    + intros [H|(x & [->|Hx] & Hk)].
      * left. rewrite H. apply orb_true_r.
      * left. subst k. now rewrite String.eqb_refl.
      * right. now exists x.
Qed.

Lemma fill_get params ps acc k v :
  dict_get k (fill E params ps acc) = Some v ->
  dict_get k acc = Some v \/
  exists x, In x ps /\ camel E x = k /\ params_get x params = v.
Proof.
  revert acc. induction ps as [|p ps IH]; intros acc; simpl; [now left|].
  intros H. apply IH in H. destruct H as [H|(x & Hx & Hk & Hv)].
  - rewrite dict_get_set in H. destruct (String.eqb_spec k (camel E p)) as [->|Hne].
    + right. exists p. repeat split; [now left | congruence].
    + now left.
  - right. exists x. repeat split; [now right | assumption | assumption].
Qed.

(** With no two parameters renamed to the same key, the parameter's value
    is found under its renamed key. *)
Lemma fill_get_exact params ps acc x :
  In x ps ->
  (forall y, In y ps -> camel E y = camel E x -> y = x) ->
  dict_get (camel E x) (fill E params ps acc) = Some (params_get x params).
Proof.
  revert acc. induction ps as [|p ps IH]; intros acc Hin Hinj; [destruct Hin|].
  simpl. destruct (in_dec String.string_dec x ps) as [Hin'|Hnot].
  - apply IH; [assumption|]. intros y Hy. apply Hinj. now right.
  - destruct Hin as [->|Hin]; [|contradiction].
    destruct (dict_get (camel E x)
                (fill E params ps
                   (dict_set (camel E x) (params_get x params) acc))) eqn:Hget.
    + apply fill_get in Hget. destruct Hget as [Hget|(y & Hy & Hk & Hv)].
      * rewrite dict_get_set_eq in Hget. congruence.
      * assert (y = x) by (apply Hinj; [now right | assumption]). congruence.
    + assert (Hk : dict_in (camel E x)
                     (fill E params ps
                        (dict_set (camel E x) (params_get x params) acc)) = true).
      { apply fill_in. left. rewrite dict_in_set.
        now rewrite String.eqb_refl. }
      unfold dict_in in Hk. rewrite Hget in Hk. discriminate.
Qed.

Lemma existsb_eqb_In x (l : list string) :
  existsb (String.eqb x) l = true <-> In x l.
Proof.
  rewrite existsb_exists. split.
  - intros (y & Hy & Heq). apply String.eqb_eq in Heq. congruence.
  - intros Hin. exists x. split; [assumption | apply String.eqb_refl].
Qed.

Lemma is_none_false v : is_none v = false <-> v <> VNone.
Proof. destruct v; simpl; split; congruence. Qed.

Lemma realm_params_In params x :
  In x (realm_params E params) <->
  In x (keys params)
  /\ ~ In x (keycloak_argument_spec E ++ ["state"])
  /\ params_get x params <> VNone.
Proof.
  unfold realm_params, params_to_ignore. rewrite filter_In, andb_true_iff.
  rewrite !negb_true_iff, is_none_false.
  pose proof (existsb_eqb_In x (keycloak_argument_spec E ++ ["state"])) as H.
  destruct (existsb _ (keycloak_argument_spec E ++ ["state"]));
    intuition congruence.
Qed.
End Mapper.

(** C2. The merged desired state [before_realm.copy()] updated with
    [changeset] is the existing representation overlaid key by key with the
    changeset: a key of the changeset has the changeset's value, any other
    key its existing value; for existing [{a:1,b:2}] and changeset
    [{b:3,c:4}] it is exactly [{a:1,b:3,c:4}]; and over an empty existing
    representation it is the changeset itself. *)
Theorem merged_is_overlay (before_realm changeset : dict) :
  wf_dict changeset ->
  (forall k,
     dict_get k (dict_update before_realm changeset) =
     match dict_get k changeset with
     | Some v => Some v
     | None => dict_get k before_realm
     end)
  /\ (before_realm = [] -> dict_update before_realm changeset = changeset)
  /\ dict_update [("a", VInt 1); ("b", VInt 2)] [("b", VInt 3); ("c", VInt 4)]
     = [("a", VInt 1); ("b", VInt 3); ("c", VInt 4)].
Proof.
  intros Hwf. split; [|split].
  - intros k. now apply dict_get_update.
  - intros ->. now apply dict_update_nil.
  - reflexivity.
Qed.

Lemma wf_dict_decide {V} (d : list (string * V)) :
  bool_decide (NoDup (keys d)) = true -> wf_dict d.
Proof. apply bool_decide_eq_true_1. Qed.

Lemma merged_is_overlay_witness :
  wf_dict [("b", VInt 3); ("c", VInt 4)]
  /\ dict_get "b" (dict_update [("a", VInt 1); ("b", VInt 2)]
                               [("b", VInt 3); ("c", VInt 4)]) = Some (VInt 3).
Proof.
  assert (Hwf : wf_dict [("b", VInt 3); ("c", VInt 4)])
    by (apply wf_dict_decide; vm_compute; reflexivity).
  split; [exact Hwf|].
  rewrite (proj1 (merged_is_overlay [("a", VInt 1); ("b", VInt 2)] _ Hwf)).
  reflexivity.
Defined.

(** C8. The keys of the changeset are exactly the [camel] renamings of the
    module parameters that are not in the exclusion set (the keys of
    [keycloak_argument_spec] and ["state"]) and whose value is not [None];
    every value in the changeset is the value of such a parameter, under
    its renamed key, and where no other such parameter is renamed to the
    same key the parameter's own value is found there unchanged. *)
Theorem changeset_keys_and_values (E : collaborators) (params : dict) :
  let specified x :=
    In x (keys params)
    /\ ~ In x (keycloak_argument_spec E ++ ["state"])
    /\ params_get x params <> VNone in
  let changeset := build_changeset E params in
  (forall k, dict_in k changeset = true <->
             exists x, specified x /\ camel E x = k)
  /\ (forall k v, dict_get k changeset = Some v ->
                  exists x, specified x /\ camel E x = k
                            /\ params_get x params = v)
  /\ (forall x, specified x ->
                (forall y, specified y -> camel E y = camel E x -> y = x) ->
                dict_get (camel E x) changeset = Some (params_get x params)).
Proof.
  intros specified changeset. subst specified changeset.
  rewrite build_changeset_fill. split; [|split].
  - intros k. rewrite fill_in. split.
    + intros [H|(x & Hx & Hk)]; [discriminate|].
      exists x. split; [now apply realm_params_In | assumption].
    + intros (x & Hx & Hk). right. exists x.
      split; [now apply realm_params_In | assumption].
  - intros k v H. apply fill_get in H. destruct H as [H|(x & Hx & Hk & Hv)].
    + discriminate.
    + exists x. split; [now apply realm_params_In | tauto].
  - intros x Hx Hinj. apply fill_get_exact.
    + now apply realm_params_In.
    + intros y Hy. apply Hinj. now apply realm_params_In.
Qed.

(** ** Computations that do not write to the remote system *)

Section Quiet.
Context (E : collaborators).

Lemma quiet_ret {A} (a : A) : quiet E (ret a).
Proof. intros s tr. exists []. now rewrite app_nil_r. Qed.

Lemma quiet_halt {A} (o : outcome) : quiet E (halt (A:=A) o).
Proof. intros s tr. exists []. now rewrite app_nil_r. Qed.

Lemma quiet_try {A} (x : exn + A) : quiet E (try x).
Proof. destruct x; [apply quiet_halt | apply quiet_ret]. Qed.

Lemma quiet_getitem d k : quiet E (getitem (E:=E) d k).
Proof.
  unfold getitem. destruct (dict_get k d); [apply quiet_ret | apply quiet_halt].
Qed.

Lemma quiet_get c realm : quiet E (kc_get_realm_by_id (E:=E) c realm).
Proof.
  intros s tr. exists [CallGet realm]. unfold kc_get_realm_by_id. simpl.
  now destruct (get_realm_by_id E c realm s).
Qed.

Lemma quiet_bind {A B} (m : M E A) (k : A -> M E B) :
  quiet E m -> (forall a, quiet E (k a)) -> quiet E (bind m k).
Proof.
  intros Hm Hk s tr. destruct (Hm s tr) as (tr1 & Hw & Hr1).
  unfold bind. destruct (m (s, tr)) as [[a|o] w]; simpl in Hw; subst w.
  - destruct (Hk a s (tr ++ tr1)) as (tr2 & Hw & Hr2).
    exists (tr1 ++ tr2). rewrite Hw, app_assoc. split; [reflexivity|].
    unfold reads_only in *. now rewrite forallb_app, Hr1, Hr2.
  - exists tr1. now split.
Qed.

Lemma main_check_mode_quiet params _diff : quiet E (main E params true _diff).
Proof.
  unfold main. destruct (get_token E params) as [e|c]; [apply quiet_halt|].
  cbv zeta.
  apply quiet_bind; [apply quiet_get | intros fetched].
  apply quiet_bind; [apply quiet_try | intros p].
  apply quiet_bind; [apply quiet_try | intros bs].
  destruct fetched as [[|kv before]|].
  - destruct (py_eq _ _); [apply quiet_halt|].
    destruct (negb _); [apply quiet_halt|].
    apply quiet_bind; [|intros r; apply quiet_halt].
    destruct _diff; [|apply quiet_ret].
    apply quiet_bind; [apply quiet_try | intros; apply quiet_ret].
  - destruct (py_eq _ _).
    + apply quiet_bind; [|intros r; apply quiet_halt].
      destruct _diff; [|apply quiet_ret].
      apply quiet_bind; [apply quiet_try | intros; apply quiet_ret].
    + apply quiet_halt.
  - destruct (py_eq _ _); [apply quiet_halt|].
    destruct (negb _); [apply quiet_halt|].
    apply quiet_bind; [|intros r; apply quiet_halt].
    destruct _diff; [|apply quiet_ret].
    apply quiet_bind; [apply quiet_try | intros; apply quiet_ret].
Qed.

Lemma run_world params check_mode _diff s :
  (remote_of (run E params check_mode _diff s),
   calls_of (run E params check_mode _diff s))
  = snd (main E params check_mode _diff (s, [])).
Proof.
  unfold run. destruct (main E params check_mode _diff (s, []))
    as [[a|o] [s' tr]]; [destruct a | reflexivity].
Qed.
End Quiet.

(** C3. In check mode no create, update or delete call is issued, whatever
    the parameters, the remote state and the branch taken: every call the
    run makes is a fetch, and the remote state is left as it was. *)
Theorem check_mode_never_mutates (E : collaborators) (params : dict)
    (_diff : bool) (s : remote E) :
  forallb (fun c => negb (mutating c))
          (calls_of (run E params true _diff s)) = true
  /\ remote_of (run E params true _diff s) = s.
Proof.
  pose proof (run_world E params true _diff s) as Hw.
  destruct (main_check_mode_quiet E params _diff s []) as (tr & Hq & Hr).
  rewrite Hq in Hw. simpl in Hw. injection Hw as Hs Hc.
  split; [rewrite Hc; exact Hr | exact Hs].
Qed.

(** ** Facts about sanitize_cr *)

Section SanitizeFacts.
Implicit Types (d : dict).

Lemma redact_secret_attributes d :
  dict_get "attributes" (redact_secret d) = dict_get "attributes" d.
Proof.
  unfold redact_secret. destruct (dict_in "secret" d); [|reflexivity].
  now apply dict_get_set_ne.
Qed.

Lemma redact_secret_keys d : keys (redact_secret d) = keys d.
Proof.
  unfold redact_secret. destruct (dict_in "secret" d) eqn:Hin; [|reflexivity].
  now rewrite keys_set, Hin.
Qed.

Lemma redact_secret_get d :
  dict_get "secret" (redact_secret d) =
  if dict_in "secret" d then Some (VStr redaction) else None.
Proof.
  unfold redact_secret. destruct (dict_in "secret" d) eqn:Hin.
  - apply dict_get_set_eq.
  - unfold dict_in in Hin. now destruct (dict_get "secret" d).
Qed.

Lemma sanitize_cr_unfold d :
  sanitize_cr d =
  match dict_get "attributes" d with
  | None => inr (redact_secret d)
  | Some attrs =>
      match py_in private_key attrs with
      | inl e => inl e
      | inr false => inr (redact_secret d)
      | inr true =>
          match attrs with
          | VDict a =>
              inr (dict_set "attributes"
                     (VDict (dict_set private_key (VStr redaction) a))
                     (redact_secret d))
          | VStr _ => inl AttributeError
          | _ => inl TypeError
          end
      end
  end.
Proof.
  unfold sanitize_cr. fold (redact_secret d).
  now rewrite redact_secret_attributes.
Qed.

Lemma sanitize_cr_succeeds d :
  attrs_safe (dict_get "attributes" d) = true <->
  exists d', sanitize_cr d = inr d'.
Proof.
  rewrite sanitize_cr_unfold. unfold attrs_safe.
  destruct (dict_get "attributes" d) as [attrs|]; [|split; eauto].
  destruct (py_in private_key attrs) as [e|[|]].
  - split; [discriminate | intros [? ?]; discriminate].
  - destruct attrs; split; eauto; try discriminate;
      intros [? ?]; discriminate.
  - split; eauto.
Qed.

Lemma attributes_ok_safe d :
  attributes_ok d = true -> attrs_safe (dict_get "attributes" d) = true.
Proof.
  unfold attributes_ok, attrs_safe.
  destruct (dict_get "attributes" d) as [[]|]; try discriminate; auto.
  simpl. now destruct (dict_in private_key _).
Qed.

Lemma attributes_ok_sanitize d :
  attributes_ok d = true -> exists d', sanitize_cr d = inr d'.
Proof. intros H. now apply sanitize_cr_succeeds, attributes_ok_safe. Qed.

(** When both parts sanitize, so does the merged state. *)
Lemma attrs_safe_update d cs :
  wf_dict cs ->
  attrs_safe (dict_get "attributes" cs) = true ->
  attrs_safe (dict_get "attributes" d) = true ->
  attrs_safe (dict_get "attributes" (dict_update d cs)) = true.
Proof.
  intros Hwf Hcs Hd. rewrite dict_get_update by assumption.
  now destruct (dict_get "attributes" cs).
Qed.

Lemma sanitize_cr_keys d d' : sanitize_cr d = inr d' -> keys d' = keys d.
Proof.
  rewrite sanitize_cr_unfold.
  destruct (dict_get "attributes" d) as [attrs|] eqn:Hattrs.
  - destruct (py_in private_key attrs) as [e|[|]]; try discriminate.
    + destruct attrs; try discriminate. intros [= <-].
      rewrite keys_set. unfold dict_in.
      now rewrite redact_secret_attributes, Hattrs, redact_secret_keys.
    + intros [= <-]. apply redact_secret_keys.
  - intros [= <-]. apply redact_secret_keys.
Qed.

Lemma sanitize_cr_nil : sanitize_cr [] = inr [].
Proof. reflexivity. Qed.

Lemma sanitize_cr_empty d d' : sanitize_cr d = inr d' -> (d' = [] <-> d = []).
Proof.
  intros H. apply sanitize_cr_keys in H. unfold keys in H.
  destruct d, d'; simpl in H; try discriminate; split; congruence.
Qed.

(** What comes out of [sanitize_cr] shows no secret. *)
Lemma sanitize_cr_redacted d d' : sanitize_cr d = inr d' -> redacted d' = true.
Proof.
  rewrite sanitize_cr_unfold. unfold redacted.
  assert (Hsec : match dict_get "secret" (redact_secret d) with
                 | Some v => py_eq v (VStr redaction)
                 | None => true
                 end = true).
  { rewrite redact_secret_get. now destruct (dict_in "secret" d). }
  destruct (dict_get "attributes" d) as [attrs|] eqn:Hattrs.
  - destruct (py_in private_key attrs) as [e|[|]] eqn:Hin; try discriminate.
    + destruct attrs; try discriminate. intros [= <-].
      rewrite dict_get_set_ne by discriminate. rewrite Hsec.
      now rewrite dict_get_set_eq, dict_get_set_eq.
    + intros [= <-]. rewrite Hsec, redact_secret_attributes, Hattrs.
      destruct attrs; try reflexivity. simpl in Hin.
      injection Hin as Hin. unfold dict_in in Hin.
      now destruct (dict_get private_key d0).
  - intros [= <-]. now rewrite Hsec, redact_secret_attributes, Hattrs.
Qed.

(** The entries that are not secrets come out as they went in. *)
Lemma sanitize_cr_other d d' k :
  sanitize_cr d = inr d' -> k <> "secret" -> k <> "attributes" ->
  dict_get k d' = dict_get k d.
Proof.
  rewrite sanitize_cr_unfold. intros H Hs Ha.
  assert (Hr : dict_get k (redact_secret d) = dict_get k d).
  { unfold redact_secret. destruct (dict_in "secret" d); [|reflexivity].
    apply dict_get_set_ne. congruence. }
  destruct (dict_get "attributes" d) as [attrs|].
  - destruct (py_in private_key attrs) as [e|[|]]; try discriminate.
    + destruct attrs; try discriminate. injection H as <-.
      rewrite dict_get_set_ne by congruence. exact Hr.
    + now injection H as <-.
  - now injection H as <-.
Qed.
End SanitizeFacts.

(** ** What a run can return *)

Lemma sanitized_nil : sanitized [].
Proof. exists []. reflexivity. Qed.

Lemma sanitized_intro (raw x : dict) : sanitize_cr raw = inr x -> sanitized x.
Proof. intros H. now exists raw. Qed.

Lemma diff_sanitized_nil (k : string) (x : dict) :
  dict_get k ([] : dict) = Some (VDict x) -> sanitized x.
Proof. discriminate. Qed.

Lemma diff_sanitized_pair (b a : val) (k : string) (x : dict) :
  (forall y, b = VDict y -> sanitized y) ->
  (forall y, a = VDict y -> sanitized y) ->
  dict_get k [("before", b); ("after", a)] = Some (VDict x) -> sanitized x.
Proof.
  intros Hb Ha H. simpl in H.
  destruct (String.eqb k "before"); [injection H as ->; now apply Hb|].
  destruct (String.eqb k "after"); [injection H as ->; now apply Ha|].
  discriminate.
Qed.

Lemma main_result_sanitized (E : collaborators) params check_mode _diff s r :
  outcome_of (run E params check_mode _diff s) = ExitJson r ->
  result_sanitized r.
Proof.
  intros H. unfold_run. split_run H.
  all: injection H as <-; unfold result_sanitized;
    unfold set_changed, set_msg, set_diff, set_proposed, set_existing,
      set_end_state; cbn [proposed existing end_state diff].
  all: repeat split; eauto using sanitized_nil, sanitized_intro.
  all: intros k x; first [apply diff_sanitized_nil | apply diff_sanitized_pair];
    intros y Hy; try discriminate Hy; injection Hy as <-;
    eauto using sanitized_intro.
Qed.

(** C5. Creating (no realm found, [state] not [absent]) without an ["id"] in
    the merged state ends in [fail_json] with the validation message; the
    only call made is the initial fetch and the remote state is untouched,
    in check mode and in a real run alike. *)
Theorem create_requires_id (E : collaborators) (params : dict)
    (check_mode _diff : bool) (s : remote E) (c : conn E)
    (fetched : option dict) :
  get_token E params = inr c ->
  get_realm_by_id E c (params_get "realm" params) s = ApiOk fetched ->
  fetched = None \/ fetched = Some [] ->
  py_eq (params_get "state" params) (VStr "absent") = false ->
  attributes_ok (build_changeset E params) = true ->
  dict_in "id" (dict_update [] (build_changeset E params)) = false ->
  run E params check_mode _diff s =
  (FailJson "id needs to be specified when creating a new realm",
   s, [CallGet (params_get "realm" params)]).
Proof.
  intros Htok Hget Habsent Hstate Hattrs Hid.
  destruct (attributes_ok_sanitize _ Hattrs) as [p Hp].
  pose proof sanitize_cr_nil as Hnil.
  destruct Habsent as [-> | ->]; run_forward; reflexivity.
Qed.

Lemma create_requires_id_witness :
  run Demo.env (Demo.params VNone (VStr "new") "present" []) false false [] =
  (FailJson "id needs to be specified when creating a new realm",
   [], [CallGet (VStr "new")]).
Proof.
  exact (create_requires_id Demo.env
           (Demo.params VNone (VStr "new") "present" []) false false [] tt None
           eq_refl eq_refl (or_introl eq_refl) eq_refl eq_refl eq_refl).
Defined.

(** C6, as amended. With no realm found and [state] equal to [absent] the
    run is a no-op: it exits with [changed] false, [existing] and
    [end_state] empty and [proposed] the sanitized changeset (empty only
    for an empty changeset); the only call made is the initial fetch and
    the remote state is untouched. *)
Theorem noop_when_absent (E : collaborators) (params : dict)
    (check_mode _diff : bool) (s : remote E) (c : conn E)
    (fetched : option dict) :
  get_token E params = inr c ->
  get_realm_by_id E c (params_get "realm" params) s = ApiOk fetched ->
  fetched = None \/ fetched = Some [] ->
  py_eq (params_get "state" params) (VStr "absent") = true ->
  attributes_ok (build_changeset E params) = true ->
  exists r,
    run E params check_mode _diff s =
      (ExitJson r, s, [CallGet (params_get "realm" params)])
    /\ changed r = false
    /\ sanitize_cr (build_changeset E params) = inr (proposed r)
    /\ (proposed r = [] <-> build_changeset E params = [])
    /\ existing r = []
    /\ end_state r = [].
Proof.
  intros Htok Hget Habsent Hstate Hattrs.
  destruct (attributes_ok_sanitize _ Hattrs) as [p Hp].
  pose proof sanitize_cr_nil as Hnil.
  pose proof (sanitize_cr_empty _ _ Hp) as Hempty.
  destruct Habsent as [-> | ->]; run_forward;
    (eexists; split; [reflexivity|]); destruct _diff; simpl; auto.
Qed.

Lemma noop_when_absent_witness :
  exists r,
    run Demo.env (Demo.params (VStr "gone") (VStr "gone") "absent" [])
        false false []
    = (ExitJson r, [], [CallGet (VStr "gone")])
    /\ changed r = false
    /\ sanitize_cr (build_changeset Demo.env
                      (Demo.params (VStr "gone") (VStr "gone") "absent" []))
       = inr (proposed r)
    /\ (proposed r = [] <->
        build_changeset Demo.env
          (Demo.params (VStr "gone") (VStr "gone") "absent" []) = [])
    /\ existing r = []
    /\ end_state r = [].
Proof.
  exact (noop_when_absent Demo.env
           (Demo.params (VStr "gone") (VStr "gone") "absent" [])
           false false [] tt None
           eq_refl eq_refl (or_introl eq_refl) eq_refl eq_refl).
Defined.

(** C6 as stated fails: deleting a realm that does not exist is a no-op
    whose [proposed] is not empty. *)
Lemma noop_proposed_not_empty :
  exists r,
    run Demo.env (Demo.params (VStr "gone") (VStr "gone") "absent" [])
        false false []
    = (ExitJson r, [], [CallGet (VStr "gone")])
    /\ changed r = false
    /\ existing r = []
    /\ end_state r = []
    /\ proposed r = [("id", VStr "gone"); ("realm", VStr "gone")]
    /\ proposed r <> [].
Proof.
  eexists. split; [reflexivity|]. simpl. repeat split. discriminate.
Qed.

(** C10. Deleting (a realm was found, [state] not [present]): a real run
    resets [proposed] to the empty mapping after the delete call, a
    check-mode run exits before that and returns the sanitized changeset;
    the two differ whenever the changeset is not empty. *)
Theorem delete_proposed_by_mode (E : collaborators) (params : dict)
    (_diff : bool) (s s' : remote E) (c : conn E) (before_realm : dict)
    (id : val) :
  get_token E params = inr c ->
  get_realm_by_id E c (params_get "realm" params) s
    = ApiOk (Some before_realm) ->
  before_realm <> [] ->
  py_eq (params_get "state" params) (VStr "present") = false ->
  attributes_ok (build_changeset E params) = true ->
  attributes_ok before_realm = true ->
  delete_realm E c (params_get "realm" params) s = ApiOk s' ->
  dict_get "id" before_realm = Some id ->
  exists real check,
    run E params false _diff s =
      (ExitJson real, s',
       [CallGet (params_get "realm" params);
        CallDelete (params_get "realm" params)])
    /\ proposed real = []
    /\ run E params true _diff s =
         (ExitJson check, s, [CallGet (params_get "realm" params)])
    /\ sanitize_cr (build_changeset E params) = inr (proposed check)
    /\ (build_changeset E params <> [] -> proposed real <> proposed check).
Proof.
  intros Htok Hget Hne Hstate Hcs Hbefore Hdel Hid.
  destruct (attributes_ok_sanitize _ Hcs) as [p Hp].
  destruct (attributes_ok_sanitize _ Hbefore) as [bs Hbs].
  pose proof (sanitize_cr_empty _ _ Hp) as Hempty.
  destruct before_realm as [|kv before]; [congruence|].
  do 2 eexists. split; [|split; [|split; [|split]]].
  - run_forward. reflexivity.
  - destruct _diff; reflexivity.
  - run_forward. reflexivity.
  - destruct _diff; exact Hp.
  - intros Hcsne Heq. apply Hcsne, Hempty.
    destruct _diff; simpl in Heq; congruence.
Qed.

Lemma delete_proposed_by_mode_witness :
  exists real check,
    run Demo.env (Demo.params (VStr "test") (VStr "test") "absent" [])
        false false Demo.server
    = (ExitJson real, [], [CallGet (VStr "test"); CallDelete (VStr "test")])
    /\ proposed real = []
    /\ run Demo.env (Demo.params (VStr "test") (VStr "test") "absent" [])
           true false Demo.server
       = (ExitJson check, Demo.server, [CallGet (VStr "test")])
    /\ sanitize_cr (build_changeset Demo.env
                      (Demo.params (VStr "test") (VStr "test") "absent" []))
       = inr (proposed check)
    /\ (build_changeset Demo.env
          (Demo.params (VStr "test") (VStr "test") "absent" []) <> [] ->
        proposed real <> proposed check).
Proof.
  refine (delete_proposed_by_mode Demo.env
            (Demo.params (VStr "test") (VStr "test") "absent" [])
            false Demo.server [] tt Demo.test_realm (VStr "test")
            eq_refl eq_refl _ eq_refl eq_refl eq_refl eq_refl eq_refl).
  discriminate.
Defined.

(** The merged state sanitizes when its two parts do. *)
Lemma desired_sanitizes (E : collaborators) (params : dict) (before_realm : dict) :
  attributes_ok (build_changeset E params) = true ->
  attributes_ok before_realm = true ->
  exists d,
    sanitize_cr (dict_update before_realm (build_changeset E params)) = inr d.
Proof.
  intros Hcs Hb. apply sanitize_cr_succeeds, attrs_safe_update.
  - apply build_changeset_wf.
  - now apply attributes_ok_safe.
  - now apply attributes_ok_safe.
Qed.

(** ** Dry-run fidelity *)

Lemma sanitize_update_ok (cs before p bs : dict) :
  wf_dict cs ->
  sanitize_cr cs = inr p -> sanitize_cr before = inr bs ->
  exists ds, sanitize_cr (dict_update before cs) = inr ds.
Proof.
  intros Hwf Hp Hbs. apply sanitize_cr_succeeds, attrs_safe_update; auto.
  - apply sanitize_cr_succeeds. eauto.
  - apply sanitize_cr_succeeds. eauto.
Qed.

Lemma run_check_mode_remote (E : collaborators) params _diff s :
  remote_of (run E params true _diff s) = s.
Proof.
  pose proof (run_world E params true _diff s) as Hw.
  destruct (main_check_mode_quiet E params _diff s []) as (tr & Hq & _).
  rewrite Hq in Hw. now injection Hw as Hs _.
Qed.

(** C4. Against a remote system that persists writes and whose realm
    representations carry their id, a check-mode run and the real run that
    follows it from the remote state the check-mode run left (no other
    writer in between) report the same [changed] flag; they also fail
    together. *)
Theorem dry_run_fidelity (E : collaborators) (params : dict) (_diff : bool)
    (s : remote E) :
  (forall c, get_token E params = inr c -> persists E c s /\ identified E c s) ->
  reported_changed (outcome_of (run E params true _diff s)) =
  reported_changed
    (outcome_of (run E params false _diff
                   (remote_of (run E params true _diff s)))).
Proof.
  intros Hrem. rewrite run_check_mode_remote.
  destruct (get_token E params) as [e|c] eqn:Htok;
    [run_forward; reflexivity|].
  destruct (Hrem c eq_refl) as [(Hcreate & Hupdate & Hdelete) Hident].
  destruct (get_realm_by_id E c (params_get "realm" params) s)
    as [fetched|m] eqn:Hget; [|run_forward; reflexivity].
  destruct (sanitize_cr (build_changeset E params)) as [e|p] eqn:Hp;
    [run_forward; reflexivity|].
  set (before := match fetched with Some d => d | None => [] end).
  destruct (sanitize_cr before) as [e|bs] eqn:Hbs.
  { subst before. destruct fetched; run_forward; reflexivity. }
  destruct (sanitize_update_ok _ _ _ _ (build_changeset_wf E params) Hp Hbs)
    as [ds Hds].
  assert (Hin : forall d : dict, dict_in "id" d =
                 match dict_get "id" d with Some _ => true | None => false end)
    by reflexivity.
  destruct fetched as [[|kv b]|]; subst before; cbn iota in Hbs, Hds.
  - (* an empty representation: absent *)
    destruct (py_eq (params_get "state" params) (VStr "absent")) eqn:Hst.
    + run_forward. destruct _diff; reflexivity.
    + pose proof (Hin (dict_update [] (build_changeset E params))) as Hin'.
      destruct (dict_get "id" (dict_update [] (build_changeset E params)))
        as [id|] eqn:Hid.
      * destruct (Hcreate _ id Hid) as (s1 & Hc & Hg1).
        run_forward. destruct _diff; run_forward; reflexivity.
      * run_forward. reflexivity.
  - (* a realm was found *)
    assert (Hidb : dict_in "id" (kv :: b) = true)
      by (eapply Hident; [exact Hget | discriminate]).
    assert (Hidd : dict_in "id" (dict_update (kv :: b) (build_changeset E params))
                   = true)
      by (rewrite dict_in_update, Hidb; apply orb_true_r).
    rewrite Hin in Hidb, Hidd.
    destruct (dict_get "id" (kv :: b)) as [idb|] eqn:Hgb; [|discriminate].
    destruct (dict_get "id" (dict_update (kv :: b) (build_changeset E params)))
      as [idd|] eqn:Hgd; [|discriminate].
    destruct (py_eq (params_get "state" params) (VStr "present")) eqn:Hst.
    + destruct (Hupdate (dict_update (kv :: b) (build_changeset E params))
                  _ _ Hget) as (s1 & Hu & Hg1).
      run_forward.
      destruct (dict_eq (kv :: b) (dict_update (kv :: b) (build_changeset E params)));
        destruct _diff; run_forward; reflexivity.
    + destruct (Hdelete _ _ Hget) as (s1 & Hd).
      run_forward. destruct _diff; run_forward; reflexivity.
  - (* nothing was found *)
    destruct (py_eq (params_get "state" params) (VStr "absent")) eqn:Hst.
    + run_forward. destruct _diff; reflexivity.
    + pose proof (Hin (dict_update [] (build_changeset E params))) as Hin'.
      destruct (dict_get "id" (dict_update [] (build_changeset E params)))
        as [id|] eqn:Hid.
      * destruct (Hcreate _ id Hid) as (s1 & Hc & Hg1).
        run_forward. destruct _diff; run_forward; reflexivity.
      * run_forward. reflexivity.
Qed.


Lemma demo_persists (s : dict) : persists Demo.env tt s.
Proof.
  split; [|split].
  - intros rep id Hid. eexists. split; [reflexivity|].
    simpl. unfold params_get. rewrite Hid.
    unfold Demo.fetch, Demo.store. now rewrite dict_get_set_eq.
  - intros rep realm b _. eexists. split; [reflexivity|].
    simpl. unfold Demo.fetch, Demo.store. now rewrite dict_get_set_eq.
  - intros realm b _. eexists. reflexivity.
Qed.

Lemma demo_server_identified : identified Demo.env tt Demo.server.
Proof.
  intros realm b Hget _. simpl in Hget. unfold Demo.fetch in Hget.
  simpl in Hget. destruct (String.eqb _ _); [|discriminate].
  now injection Hget as <-.
Qed.

Lemma dry_run_fidelity_witness :
  reported_changed
    (outcome_of (run Demo.env
                   (Demo.params (VStr "test") (VStr "test") "present"
                                [("enabled", VBool false)])
                   true false Demo.server)) = Some true
  /\ reported_changed
       (outcome_of (run Demo.env
                      (Demo.params (VStr "test") (VStr "test") "present"
                                   [("enabled", VBool false)])
                      false false Demo.server)) = Some true.
Proof.
  split; [reflexivity|].
  etransitivity; [|reflexivity].
  symmetry.
  exact (dry_run_fidelity Demo.env
           (Demo.params (VStr "test") (VStr "test") "present"
                        [("enabled", VBool false)])
           false Demo.server
           (fun c _ => match c with
                       | tt => conj (demo_persists Demo.server)
                                    demo_server_identified
                       end)).
Defined.

(** ** The precondition check *)

Lemma count_terms_pos (terms : list string) (parameters : dict) :
  count_terms terms parameters <> 0 ->
  existsb (fun t => dict_in t parameters) terms = true.
Proof.
  unfold count_terms. induction terms as [|t terms IH]; simpl; [congruence|].
  destruct (dict_in t parameters); simpl; auto.
Qed.

(** C9, as amended. The parameters that pass the precondition checks
    supply at least one of [id], [realm] and [enabled] (and at least one of
    [token], [auth_realm], [auth_username] and [auth_password]). *)
Theorem required_one_of_passed (parameters : dict) :
  passes_preconditions parameters = true ->
  (dict_in "id" parameters || dict_in "realm" parameters
   || dict_in "enabled" parameters = true)
  /\ (dict_in "token" parameters || dict_in "auth_realm" parameters
      || dict_in "auth_username" parameters
      || dict_in "auth_password" parameters = true).
Proof.
  unfold passes_preconditions. intros H. apply andb_true_iff in H.
  destruct H as [_ H]. revert H.
  unfold check_required_one_of, required_one_of. cbn [List.filter].
  destruct (Nat.eqb (count_terms ["id"; "realm"; "enabled"] parameters) 0)
    eqn:H1; [discriminate|].
  destruct (Nat.eqb (count_terms ["token"; "auth_realm"; "auth_username";
                                  "auth_password"] parameters) 0)
    eqn:H2; [discriminate|].
  intros _. apply Nat.eqb_neq in H1, H2.
  apply count_terms_pos in H1, H2. simpl in H1, H2.
  rewrite orb_false_r in H1, H2. rewrite !orb_assoc in *. auto.
Qed.

Lemma required_one_of_passed_witness :
  passes_preconditions
    [("auth_keycloak_url", VStr "https://auth.example.com/auth");
     ("id", VStr "test"); ("token", VStr "TOKEN")] = true
  /\ (dict_in "id"
        [("auth_keycloak_url", VStr "https://auth.example.com/auth");
         ("id", VStr "test"); ("token", VStr "TOKEN")]
      || dict_in "realm"
           [("auth_keycloak_url", VStr "https://auth.example.com/auth");
            ("id", VStr "test"); ("token", VStr "TOKEN")]
      || dict_in "enabled"
           [("auth_keycloak_url", VStr "https://auth.example.com/auth");
            ("id", VStr "test"); ("token", VStr "TOKEN")] = true).
Proof.
  split; [reflexivity|].
  exact (proj1 (required_one_of_passed
                  [("auth_keycloak_url", VStr "https://auth.example.com/auth");
                   ("id", VStr "test"); ("token", VStr "TOKEN")]
                  eq_refl)).
Defined.

(** C9 as stated fails: parameters that supply [enabled] and a token pass
    the checks with neither [id] nor [realm]. *)
Lemma required_one_of_without_id_or_realm :
  passes_preconditions
    [("auth_keycloak_url", VStr "https://auth.example.com/auth");
     ("enabled", VBool true); ("token", VStr "TOKEN")] = true
  /\ dict_in "id"
       [("auth_keycloak_url", VStr "https://auth.example.com/auth");
        ("enabled", VBool true); ("token", VStr "TOKEN")] = false
  /\ dict_in "realm"
       [("auth_keycloak_url", VStr "https://auth.example.com/auth");
        ("enabled", VBool true); ("token", VStr "TOKEN")] = false.
Proof. repeat split. Qed.

(** ** Facts about the object store *)

Section HeapFacts.
Local Abbreviation sanitize_value := sanitize_cr.
Local Abbreviation sanitize_value_unfold := sanitize_cr_unfold.
Import Heap.

Lemma preserved_refl h : preserved h h.
Proof. intros l o H. exact H. Qed.

Lemma preserved_trans h1 h2 h3 :
  preserved h1 h2 -> preserved h2 h3 -> preserved h1 h3.
Proof. intros H12 H23 l o H. apply H23, H12, H. Qed.

Lemma alloc_fresh o h : h !! (alloc o h).1 = None.
Proof. simpl. apply not_elem_of_dom, is_fresh. Qed.

Lemma alloc_lookup o h : (alloc o h).2 !! (alloc o h).1 = Some o.
Proof. simpl. apply lookup_insert_eq. Qed.

Lemma insert_fresh_preserved h l o :
  h !! l = None -> preserved h (<[l := o]> h).
Proof.
  intros Hl l' o' H. rewrite lookup_insert_ne; [exact H|].
  intros <-. congruence.
Qed.

(** Writing to an object that [h0] does not hold leaves [h0] preserved. *)
Lemma setitem_preserved h0 h l k v :
  h0 !! l = None -> preserved h0 h -> preserved h0 (setitem l k v h).
Proof.
  intros Hl Hp l' o H. unfold setitem.
  rewrite lookup_alter_ne; [now apply Hp|]. intros <-. congruence.
Qed.

Lemma copy_spec l h l' h' :
  copy l h = Some (l', h') ->
  exists o, h !! l = Some o /\ h !! l' = None /\ h' = <[l' := o]> h.
Proof.
  unfold copy. destruct (h !! l) as [o|] eqn:Ho; [|discriminate].
  intros [= <- <-]. exists o. split; [reflexivity|].
  split; [apply (alloc_fresh o h) | reflexivity].
Qed.

(** [sanitize_cr] writes only to the objects it has allocated: every
    object of the store it was called on is unchanged, and the object it
    returns is a new one. *)
Lemma heap_sanitize_cr_preserved realmrep h out h' :
  sanitize_cr realmrep h = Some (out, h') ->
  preserved h h'
  /\ (forall result, out = inr result -> h !! result = None).
Proof.
  unfold sanitize_cr.
  destruct (copy realmrep h) as [[result h1]|] eqn:Hcopy; [|discriminate].
  apply copy_spec in Hcopy. destruct Hcopy as (o & Ho & Hfresh & ->).
  set (h1 := <[result := o]> h).
  assert (Hp1 : preserved h h1) by (now apply insert_fresh_preserved).
  set (h2 := if has result "secret" h1
             then setitem result "secret" (Imm (VStr redaction)) h1
             else h1).
  assert (Hp2 : preserved h h2).
  { subst h2. destruct (has result "secret" h1); [|exact Hp1].
    now apply setitem_preserved. }
  clearbody h2.
  destruct (getitem result "attributes" h2) as [[attrs|attrs]|].
  - destruct (py_in private_key attrs) as [e|[|]].
    + intros [= <- <-]. split; [exact Hp2 | discriminate].
    + destruct attrs; intros [= <- <-];
        (split; [try exact Hp2; now apply setitem_preserved
                | intros ? [=]; congruence]).
    + intros [= <- <-]. split; [exact Hp2 | intros ? [=]; congruence].
  - destruct (has attrs private_key h2).
    + destruct (copy attrs h2) as [[attrs' h3]|] eqn:Hcopy; [|discriminate].
      apply copy_spec in Hcopy. destruct Hcopy as (oa & Hoa & Hfresh' & ->).
      intros [= <- <-]. split; [|intros ? [=]; congruence].
      apply setitem_preserved.
      * destruct (h !! attrs') eqn:Hh; [|reflexivity].
        apply Hp2 in Hh. congruence.
      * apply setitem_preserved; [exact Hfresh|].
        eapply preserved_trans; [exact Hp2|].
        now apply insert_fresh_preserved.
    + intros [= <- <-]. split; [exact Hp2 | intros ? [=]; congruence].
  - intros [= <- <-]. split; [exact Hp2 | intros ? [=]; congruence].
Qed.

Lemma reify_entries_ext f g o d :
  (forall v x, f v = Some x -> g v = Some x) ->
  reify_entries f o = Some d -> reify_entries g o = Some d.
Proof.
  intros Hfg. revert d. induction o as [|[k v] o IH]; intros d; simpl; [auto|].
  destruct (f v) as [x|] eqn:Hf; [|discriminate].
  destruct (reify_entries f o) as [d'|]; [|discriminate].
  intros [= <-]. now rewrite (Hfg _ _ Hf), (IH d').
Qed.

Lemma reify_preserved n h h' v x :
  preserved h h' -> reify n h v = Some x -> reify n h' v = Some x.
Proof.
  intros Hp. revert v x. induction n as [|n IH]; intros [y|l] x; simpl; auto.
  destruct (h !! l) as [o|] eqn:Ho; [|discriminate].
  rewrite (Hp _ _ Ho).
  destruct (reify_entries (reify n h) o) as [d|] eqn:Hd; [|discriminate].
  now rewrite (reify_entries_ext _ (reify n h') _ _ IH Hd).
Qed.

Lemma reify_entries_get f o d k :
  reify_entries f o = Some d ->
  dict_get k d = match dict_get k o with Some v => f v | None => None end.
Proof.
  revert d. induction o as [|[k' v] o IH]; intros d; simpl.
  - now intros [= <-].
  - destruct (f v) as [x|] eqn:Hf; [|discriminate].
    destruct (reify_entries f o) as [d'|]; [|discriminate].
    intros [= <-]. simpl. destruct (String.eqb k k'); [now rewrite Hf|].
    now apply IH.
Qed.

Lemma reify_entries_in f o d k :
  reify_entries f o = Some d -> dict_in k d = dict_in k o.
Proof.
  revert d. induction o as [|[k' v] o IH]; intros d; simpl.
  - now intros [= <-].
  - destruct (f v) as [x|] eqn:Hf; [|discriminate].
    destruct (reify_entries f o) as [d'|]; [|discriminate].
    intros [= <-]. unfold dict_in in *. simpl.
    destruct (String.eqb k k'); [reflexivity|]. now apply IH.
Qed.

Lemma reify_entries_set f o d k v x :
  reify_entries f o = Some d -> f v = Some x ->
  reify_entries f (dict_set k v o) = Some (dict_set k x d).
Proof.
  intros Hd Hv. revert d Hd.
  induction o as [|[k' v'] o IH]; intros d; simpl.
  - intros [= <-]. now rewrite Hv.
  - destruct (f v') as [x'|] eqn:Hf; [|discriminate].
    destruct (reify_entries f o) as [d'|] eqn:Hd'; [|discriminate].
    intros [= <-]. simpl. destruct (String.eqb k k'); simpl.
    + now rewrite Hv, Hd'.
    + now rewrite Hf, (IH d').
Qed.

Lemma reify_imm n h x : reify n h (Imm x) = Some x.
Proof. destruct n; reflexivity. Qed.

Lemma reify_ref n h l o d :
  h !! l = Some o -> reify_entries (reify n h) o = Some d ->
  reify (S n) h (Ref l) = Some (VDict d).
Proof. intros Hl Hd. cbn [reify]. now rewrite Hl, Hd. Qed.

Lemma reify_ref_inv n h l x :
  reify n h (Ref l) = Some x ->
  exists n' o d, n = S n' /\ h !! l = Some o
                 /\ reify_entries (reify n' h) o = Some d /\ x = VDict d.
Proof.
  destruct n as [|n']; [discriminate|]. cbn [reify].
  destruct (h !! l) as [o|]; [|discriminate].
  destruct (reify_entries (reify n' h) o) as [d|] eqn:Hd; [|discriminate].
  intros [= <-]. now exists n', o, d.
Qed.

Lemma reify_entries_preserved n h h' o d :
  preserved h h' ->
  reify_entries (reify n h) o = Some d ->
  reify_entries (reify n h') o = Some d.
Proof.
  intros Hp. apply reify_entries_ext. intros v x. now apply reify_preserved.
Qed.

(** The store-level [sanitize_cr] computes what the function on values
    computes: on a store in which [realmrep] reads as the dict [d] it
    runs to an end, raises when [sanitize_cr d] raises, and otherwise
    returns an object that reads as [sanitize_cr d]. *)
Lemma heap_sanitize_cr_refines n h realmrep d :
  reify (S n) h (Ref realmrep) = Some (VDict d) ->
  exists out h',
    Heap.sanitize_cr realmrep h = Some (out, h')
    /\ match out with
       | inl e => sanitize_value d = inl e
       | inr result =>
           exists d', reify (S n) h' (Ref result) = Some (VDict d')
                      /\ sanitize_value d = inr d'
       end.
Proof.
  intros Hre. cbn [reify] in Hre.
  destruct (h !! realmrep) as [o|] eqn:Ho; [|discriminate].
  destruct (reify_entries (reify n h) o) as [d0|] eqn:Hd; [|discriminate].
  injection Hre as ->.
  unfold Heap.sanitize_cr, copy. rewrite Ho. unfold alloc.
  set (result := fresh (dom h)).
  assert (Hfresh : h !! result = None) by apply not_elem_of_dom, is_fresh.
  set (o2 := if dict_in "secret" o
             then dict_set "secret" (Imm (VStr redaction)) o else o).
  assert (Hh2 : (if has result "secret" (<[result := o]> h)
                 then setitem result "secret" (Imm (VStr redaction))
                        (<[result := o]> h)
                 else <[result := o]> h) = <[result := o2]> h).
  { unfold has, setitem, o2. rewrite lookup_insert_eq.
    destruct (dict_in "secret" o); [apply alter_insert_eq | reflexivity]. }
  rewrite Hh2. clear Hh2.
  assert (Hp2 : preserved h (<[result := o2]> h))
    by now apply insert_fresh_preserved.
  assert (Hd2 : reify_entries (reify n h) o2 = Some (redact_secret d)).
  { unfold o2, redact_secret. rewrite (reify_entries_in _ _ _ "secret" Hd).
    destruct (dict_in "secret" o); [|exact Hd].
    apply reify_entries_set; [exact Hd | apply reify_imm]. }
  assert (Hattr : dict_get "attributes" o2 = dict_get "attributes" o).
  { unfold o2. destruct (dict_in "secret" o); [|reflexivity].
    now apply dict_get_set_ne. }
  unfold getitem. rewrite lookup_insert_eq, Hattr.
  rewrite sanitize_value_unfold.
  pose proof (reify_entries_get _ _ _ "attributes" Hd) as Hget.
  pose proof (reify_entries_in _ _ _ "attributes" Hd) as Hin.
  unfold dict_in in Hin.
  assert (Hplain : reify (S n) (<[result := o2]> h) (Ref result) =
                   Some (VDict (redact_secret d))).
  { apply (reify_ref _ _ _ o2); [apply lookup_insert_eq|].
    now apply (reify_entries_preserved _ h). }
  destruct (dict_get "attributes" o) as [[attrs|attrs]|] eqn:Hao.
  - (* an immutable value *)
    rewrite reify_imm in Hget. rewrite Hget.
    destruct (py_in private_key attrs) as [e|[|]] eqn:Hpy.
    + eexists _, _. split; [reflexivity | reflexivity].
    + destruct attrs; try discriminate Hpy;
        (eexists _, _; split; [reflexivity|]); try reflexivity.
      eexists. split; [|reflexivity].
      apply (reify_ref _ _ _
               (dict_set "attributes"
                  (Imm (VDict (dict_set private_key (VStr redaction) d0)))
                  o2)).
      * unfold setitem. now rewrite alter_insert_eq, lookup_insert_eq.
      * apply reify_entries_set; [|apply reify_imm].
        apply (reify_entries_preserved _ h); [|exact Hd2].
        unfold setitem. rewrite alter_insert_eq.
        now apply insert_fresh_preserved.
    + eexists _, _. split; [reflexivity|]. eexists. split; [exact Hplain | reflexivity].
  - (* a reference to a dict object *)
    destruct (reify n h (Ref attrs)) as [x|] eqn:Hx;
      [|rewrite Hget in Hin; discriminate].
    apply reify_ref_inv in Hx.
    destruct Hx as (n' & oa & da & -> & Hoa & Hda & ->).
    rewrite Hget. cbn [py_in].
    assert (Hne : result <> attrs) by congruence.
    assert (Hlk : <[result := o2]> h !! attrs = Some oa)
      by (rewrite lookup_insert_ne by exact Hne; exact Hoa).
    unfold has. rewrite !Hlk.
    rewrite <- (reify_entries_in _ _ _ private_key Hda).
    destruct (dict_in private_key da) eqn:Hpk.
    + set (h2 := <[result := o2]> h) in *.
      set (attrs' := fresh (dom h2)).
      assert (Hfresh' : h2 !! attrs' = None) by apply not_elem_of_dom, is_fresh.
      assert (Hne' : attrs' <> result).
      { intros Heq. rewrite Heq in Hfresh'. unfold h2 in Hfresh'.
        rewrite lookup_insert_eq in Hfresh'. discriminate. }
      assert (Hold : h !! attrs' = None).
      { destruct (h !! attrs') eqn:Hh; [|reflexivity].
        apply Hp2 in Hh. congruence. }
      set (h5 := setitem attrs' private_key (Imm (VStr redaction))
                   (setitem result "attributes" (Ref attrs')
                      (<[attrs' := oa]> h2))).
      assert (Hres : h5 !! result =
                     Some (dict_set "attributes" (Ref attrs') o2)).
      { unfold h5, setitem. rewrite lookup_alter_ne by exact Hne'.
        rewrite lookup_alter_eq, lookup_insert_ne by exact Hne'.
        unfold h2. now rewrite lookup_insert_eq. }
      assert (Hatt : h5 !! attrs' =
                     Some (dict_set private_key (Imm (VStr redaction)) oa)).
      { unfold h5, setitem. rewrite lookup_alter_eq.
        rewrite lookup_alter_ne by congruence.
        now rewrite lookup_insert_eq. }
      assert (Hp5 : preserved h h5).
      { unfold h5. apply setitem_preserved; [exact Hold|].
        apply setitem_preserved; [exact Hfresh|].
        eapply preserved_trans; [exact Hp2|].
        now apply insert_fresh_preserved. }
      eexists _, _. split; [reflexivity|].
      eexists. split; [|reflexivity].
      apply (reify_ref _ _ _ _ _ Hres).
      apply reify_entries_set.
      * now apply (reify_entries_preserved _ h).
      * apply (reify_ref _ _ _ _ _ Hatt).
        apply reify_entries_set; [|apply reify_imm].
        now apply (reify_entries_preserved _ h).
    + eexists _, _. split; [reflexivity|].
      eexists. split; [exact Hplain | reflexivity].
  - (* no attributes *)
    rewrite Hget.
    eexists _, _. split; [reflexivity|].
    eexists. split; [exact Hplain | reflexivity].
Qed.
End HeapFacts.

(** ** Sanitization of what the module reports *)

Lemma sanitize_cr_secret (d d' : dict) :
  sanitize_cr d = inr d' -> dict_in "secret" d = true ->
  dict_get "secret" d' = Some (VStr redaction).
Proof.
  rewrite sanitize_cr_unfold. intros H Hin.
  assert (Hs : dict_get "secret" (redact_secret d) = Some (VStr redaction))
    by (now rewrite redact_secret_get, Hin).
  destruct (dict_get "attributes" d) as [attrs|].
  - destruct (py_in private_key attrs) as [e|[|]]; try discriminate.
    + destruct attrs; try discriminate. injection H as <-.
      now rewrite dict_get_set_ne by discriminate.
    + now injection H as <-.
  - now injection H as <-.
Qed.

Lemma sanitize_cr_private_key (d d' a : dict) :
  sanitize_cr d = inr d' ->
  dict_get "attributes" d = Some (VDict a) ->
  dict_in private_key a = true ->
  dict_get "attributes" d'
  = Some (VDict (dict_set private_key (VStr redaction) a)).
Proof.
  rewrite sanitize_cr_unfold. intros H Ha Hin. rewrite Ha in H.
  cbn [py_in] in H. rewrite Hin in H. injection H as <-.
  apply dict_get_set_eq.
Qed.

(** * Part IV: further properties of the module *)

(** ** sanitize_cr *)

Lemma dict_set_same {V} (k : string) (v : V) (d : list (string * V)) :
  dict_get k d = Some v -> dict_set k v d = d.
Proof.
  induction d as [|[k' v'] d IH]; simpl; [discriminate|].
  destruct (String.eqb_spec k k') as [->|Hne].
  - now intros [= ->].
  - intros H. now rewrite IH.
Qed.

Lemma dict_set_set {V} (k : string) (v w : V) (d : list (string * V)) :
  dict_set k v (dict_set k w d) = dict_set k v d.
Proof.
  induction d as [|[k' v'] d IH]; simpl.
  - now rewrite String.eqb_refl.
  - destruct (String.eqb k k') eqn:Hk; simpl; rewrite ?String.eqb_refl, ?Hk;
      [reflexivity | now rewrite IH].
Qed.

(** X1. Sanitizing twice is sanitizing once: what [sanitize_cr] returns is
    returned unchanged by a second call. *)
Theorem sanitize_cr_idempotent (d d' : dict) :
  sanitize_cr d = inr d' -> sanitize_cr d' = inr d'.
Proof.
  intros H.
  assert (Hsec : redact_secret d' = d').
  { unfold redact_secret. destruct (dict_in "secret" d') eqn:Hin; [|reflexivity].
    apply dict_set_same.
    assert (Hk : dict_in "secret" d = true).
    { apply dict_in_keys. rewrite <- (sanitize_cr_keys _ _ H).
      now apply dict_in_keys. }
    revert H. rewrite sanitize_cr_unfold.
    assert (Hs : dict_get "secret" (redact_secret d) = Some (VStr redaction))
      by (now rewrite redact_secret_get, Hk).
    destruct (dict_get "attributes" d) as [attrs|].
    - destruct (py_in private_key attrs) as [e|[|]]; try discriminate.
      + destruct attrs; try discriminate. intros [= <-].
        now rewrite dict_get_set_ne by discriminate.
      + now intros [= <-].
    - now intros [= <-]. }
  rewrite (sanitize_cr_unfold d'), Hsec.
  revert H. rewrite sanitize_cr_unfold.
  destruct (dict_get "attributes" d) as [attrs|] eqn:Ha.
  - destruct (py_in private_key attrs) as [e|[|]] eqn:Hpy; try discriminate.
    + destruct attrs; try discriminate. intros [= <-].
      rewrite dict_get_set_eq. cbn [py_in].
      rewrite dict_in_set, String.eqb_refl. cbn [orb].
      now rewrite dict_set_set, dict_set_set.
    + intros [= <-]. now rewrite redact_secret_attributes, Ha, Hpy.
  - intros [= <-]. now rewrite redact_secret_attributes, Ha.
Qed.

Lemma sanitize_cr_idempotent_witness :
  sanitize_cr [("secret", VStr redaction);
               ("attributes", VDict [(private_key, VStr redaction)])]
  = inr [("secret", VStr redaction);
         ("attributes", VDict [(private_key, VStr redaction)])].
Proof.
  exact (sanitize_cr_idempotent
           [("secret", VStr "s3");
            ("attributes", VDict [(private_key, VStr "KEY")])]
           _ eq_refl).
Defined.

(** X2. A representation with no ["secret"] key and no private key under
    ["attributes"] is returned as it is. *)
Theorem sanitize_cr_nothing_to_hide (d : dict) :
  dict_in "secret" d = false ->
  match dict_get "attributes" d with
  | None => True
  | Some attrs => py_in private_key attrs = inr false
  end ->
  sanitize_cr d = inr d.
Proof.
  intros Hs Ha. rewrite sanitize_cr_unfold. unfold redact_secret. rewrite Hs.
  destruct (dict_get "attributes" d) as [attrs|]; [|reflexivity].
  now rewrite Ha.
Qed.

Lemma sanitize_cr_nothing_to_hide_witness :
  sanitize_cr [("id", VStr "test");
               ("attributes", VDict [("frontendUrl", VStr "https://x")])]
  = inr [("id", VStr "test");
         ("attributes", VDict [("frontendUrl", VStr "https://x")])].
Proof.
  exact (sanitize_cr_nothing_to_hide
           [("id", VStr "test");
            ("attributes", VDict [("frontendUrl", VStr "https://x")])]
           eq_refl eq_refl).
Defined.

(** X3. [sanitize_cr] returns a dict exactly when ["attributes"] is absent,
    is a mapping, or is a string or list that does not contain the private
    key name; it raises for [None], a boolean, an integer, and for a string
    or list that contains the name.  When it returns, the dict has the keys
    of its argument, in the same order. *)
Theorem sanitize_cr_returns_iff (d : dict) :
  ((exists d', sanitize_cr d = inr d') <->
   match dict_get "attributes" d with
   | None | Some (VDict _) => True
   | Some (VStr s) => str_contains private_key s = false
   | Some (VList l) => existsb (py_eq (VStr private_key)) l = false
   | Some (VNone | VBool _ | VInt _) => False
   end)
  /\ (forall d', sanitize_cr d = inr d' -> keys d' = keys d).
Proof.
  split; [|intros d'; apply sanitize_cr_keys].
  rewrite <- sanitize_cr_succeeds. unfold attrs_safe.
  destruct (dict_get "attributes" d) as [[| | | s | l | a]|]; cbn [py_in];
    try (split; [discriminate | tauto]); try tauto.
  - destruct (str_contains private_key s); split; congruence.
  - destruct (existsb _ l); split; congruence.
  - destruct (dict_in private_key a); tauto.
Qed.

(** ** The paths of main *)

(** X4. When no token can be obtained the module fails with the text of the
    error, before any call on the API client. *)
Theorem token_failure_fails_first (E : collaborators) (params : dict)
    (check_mode _diff : bool) (s : remote E) (e : string) :
  get_token E params = inl e ->
  run E params check_mode _diff s = (FailJson e, s, []).
Proof. intros Htok. run_forward. reflexivity. Qed.

Lemma token_failure_fails_first_witness :
  run Faulty.no_token
      (Demo.params (VStr "test") (VStr "test") "present" [])
      false false Demo.server
  = (FailJson "Could not obtain access token", Demo.server, []).
Proof.
  exact (token_failure_fails_first Faulty.no_token
           (Demo.params (VStr "test") (VStr "test") "present" [])
           false false Demo.server _ eq_refl).
Defined.

(** X5. Creating, real run: the representation sent to [create_realm] is
    the changeset itself; once the create call and the fetch of the new id
    have succeeded the module exits with [changed] true, [existing] empty,
    [end_state] the sanitized fetched realm and the creation message. *)
Theorem create_real_run (E : collaborators) (params : dict) (_diff : bool)
    (s s1 : remote E) (c : conn E) (fetched : option dict) (id : val)
    (after_realm : dict) :
  let realm := params_get "realm" params in
  let changeset := build_changeset E params in
  get_token E params = inr c ->
  get_realm_by_id E c realm s = ApiOk fetched ->
  fetched = None \/ fetched = Some [] ->
  py_eq (params_get "state" params) (VStr "absent") = false ->
  attributes_ok changeset = true ->
  dict_get "id" changeset = Some id ->
  create_realm E c changeset s = ApiOk s1 ->
  get_realm_by_id E c id s1 = ApiOk (Some after_realm) ->
  attributes_ok after_realm = true ->
  exists r,
    run E params false _diff s =
      (ExitJson r, s1, [CallGet realm; CallCreate changeset; CallGet id])
    /\ changed r = true
    /\ existing r = []
    /\ sanitize_cr after_realm = inr (end_state r)
    /\ msg r = created_msg E id.
Proof.
  intros realm changeset Htok Hget Habsent Hstate Hattrs Hid Hcreate Hafter Hok.
  subst realm changeset.
  destruct (attributes_ok_sanitize _ Hattrs) as [p Hp].
  destruct (attributes_ok_sanitize _ Hok) as [es Hes].
  pose proof sanitize_cr_nil as Hnil.
  pose proof (dict_update_nil _ (build_changeset_wf E params)) as Hdes.
  assert (Hin : dict_in "id" (build_changeset E params) = true)
    by (unfold dict_in; now rewrite Hid).
  assert (Hdes' : sanitize_cr (dict_update [] (build_changeset E params))
                  = inr p) by (now rewrite Hdes).
  rewrite <- Hdes in Hid, Hin, Hcreate.
  destruct Habsent as [-> | ->]; destruct _diff;
    (eexists; split;
     [ run_forward; rewrite Hdes; reflexivity
     | repeat split; exact Hes ]).
Qed.

Lemma create_real_run_witness :
  exists r,
    run Demo.env (Demo.params (VStr "new") (VStr "new") "present" [])
        false false Demo.server
    = (ExitJson r,
       Demo.store (VStr "new")
         [("id", VStr "new"); ("realm", VStr "new")] Demo.server,
       [CallGet (VStr "new");
        CallCreate [("id", VStr "new"); ("realm", VStr "new")];
        CallGet (VStr "new")])
    /\ changed r = true
    /\ existing r = []
    /\ sanitize_cr [("id", VStr "new"); ("realm", VStr "new")]
       = inr (end_state r)
    /\ msg r = "Realm new has been created.".
Proof.
  exact (create_real_run Demo.env
           (Demo.params (VStr "new") (VStr "new") "present" [])
           false Demo.server _ tt None (VStr "new")
           [("id", VStr "new"); ("realm", VStr "new")]
           eq_refl eq_refl (or_introl eq_refl) eq_refl eq_refl eq_refl
           eq_refl eq_refl eq_refl).
Defined.

(** X6. Creating, check mode: the module exits after the fetch with
    [changed] true, an empty [end_state] and an empty message; the
    predicted realm is reported only as the [after] side of [diff], and
    only when a diff was asked for. *)
Theorem create_check_mode (E : collaborators) (params : dict) (_diff : bool)
    (s : remote E) (c : conn E) (fetched : option dict) :
  let realm := params_get "realm" params in
  let changeset := build_changeset E params in
  get_token E params = inr c ->
  get_realm_by_id E c realm s = ApiOk fetched ->
  fetched = None \/ fetched = Some [] ->
  py_eq (params_get "state" params) (VStr "absent") = false ->
  attributes_ok changeset = true ->
  dict_in "id" changeset = true ->
  exists r p,
    run E params true _diff s = (ExitJson r, s, [CallGet realm])
    /\ changed r = true
    /\ end_state r = []
    /\ msg r = ""
    /\ sanitize_cr changeset = inr p
    /\ proposed r = p
    /\ diff r = if _diff
                then [("before", VStr ""); ("after", VDict p)]
                else [].
Proof.
  intros realm changeset Htok Hget Habsent Hstate Hattrs Hin.
  subst realm changeset.
  destruct (attributes_ok_sanitize _ Hattrs) as [p Hp].
  pose proof sanitize_cr_nil as Hnil.
  pose proof (dict_update_nil _ (build_changeset_wf E params)) as Hdes.
  assert (Hdes' : sanitize_cr (dict_update [] (build_changeset E params))
                  = inr p) by (now rewrite Hdes).
  rewrite <- Hdes in Hin.
  destruct Habsent as [-> | ->]; destruct _diff;
    (eexists; exists p; split;
     [ run_forward; reflexivity | repeat split; exact Hp ]).
Qed.

Lemma create_check_mode_witness :
  exists r p,
    run Demo.env (Demo.params (VStr "new") (VStr "new") "present" [])
        true true Demo.server
    = (ExitJson r, Demo.server, [CallGet (VStr "new")])
    /\ changed r = true
    /\ end_state r = []
    /\ msg r = ""
    /\ sanitize_cr [("id", VStr "new"); ("realm", VStr "new")] = inr p
    /\ proposed r = p
    /\ diff r = [("before", VStr ""); ("after", VDict p)].
Proof.
  exact (create_check_mode Demo.env
           (Demo.params (VStr "new") (VStr "new") "present" [])
           true Demo.server tt None
           eq_refl eq_refl (or_introl eq_refl) eq_refl eq_refl eq_refl).
Defined.

(** X7. Deleting, real run: [delete_realm] is called exactly once, after the
    fetch; the module exits with [changed] true, an empty [end_state], the
    sanitized existing realm in [existing] and the deletion message, which
    names the id of the existing realm. *)
Theorem delete_real_run (E : collaborators) (params : dict) (_diff : bool)
    (s s1 : remote E) (c : conn E) (before_realm : dict) (id : val) :
  let realm := params_get "realm" params in
  get_token E params = inr c ->
  get_realm_by_id E c realm s = ApiOk (Some before_realm) ->
  before_realm <> [] ->
  py_eq (params_get "state" params) (VStr "present") = false ->
  attributes_ok (build_changeset E params) = true ->
  attributes_ok before_realm = true ->
  delete_realm E c realm s = ApiOk s1 ->
  dict_get "id" before_realm = Some id ->
  exists r,
    run E params false _diff s =
      (ExitJson r, s1, [CallGet realm; CallDelete realm])
    /\ changed r = true
    /\ end_state r = []
    /\ sanitize_cr before_realm = inr (existing r)
    /\ msg r = deleted_msg E id
    /\ diff r = if _diff
                then [("before", VDict (existing r)); ("after", VStr "")]
                else [].
Proof.
  intros realm Htok Hget Hne Hstate Hcs Hbefore Hdel Hid. subst realm.
  destruct (attributes_ok_sanitize _ Hcs) as [p Hp].
  destruct (attributes_ok_sanitize _ Hbefore) as [bs Hbs].
  destruct before_realm as [|kv before]; [congruence|].
  destruct _diff;
    (eexists; split; [run_forward; reflexivity | repeat split; exact Hbs]).
Qed.

Lemma delete_real_run_witness :
  exists r,
    run Demo.env (Demo.params (VStr "test") (VStr "test") "absent" [])
        false true Demo.server
    = (ExitJson r, [], [CallGet (VStr "test"); CallDelete (VStr "test")])
    /\ changed r = true
    /\ end_state r = []
    /\ sanitize_cr Demo.test_realm = inr (existing r)
    /\ msg r = "Realm test has been deleted."
    /\ diff r = [("before", VDict (existing r)); ("after", VStr "")].
Proof.
  refine (delete_real_run Demo.env
            (Demo.params (VStr "test") (VStr "test") "absent" [])
            true Demo.server [] tt Demo.test_realm (VStr "test")
            eq_refl eq_refl _ eq_refl eq_refl eq_refl eq_refl eq_refl).
  discriminate.
Defined.

(** X8. Updating, real run: once the update and the second fetch have
    succeeded the module exits with [end_state] the sanitized fetched
    realm, [diff] (when asked for) from the sanitized existing realm to the
    sanitized fetched realm, and the update message, which names the id of
    the merged state. *)
Theorem update_real_run (E : collaborators) (params : dict) (_diff : bool)
    (s s1 : remote E) (c : conn E) (before_realm after_realm : dict)
    (id : val) :
  let realm := params_get "realm" params in
  let desired_realm := dict_update before_realm (build_changeset E params) in
  get_token E params = inr c ->
  get_realm_by_id E c realm s = ApiOk (Some before_realm) ->
  before_realm <> [] ->
  py_eq (params_get "state" params) (VStr "present") = true ->
  attributes_ok (build_changeset E params) = true ->
  attributes_ok before_realm = true ->
  update_realm E c desired_realm realm s = ApiOk s1 ->
  get_realm_by_id E c realm s1 = ApiOk (Some after_realm) ->
  attributes_ok after_realm = true ->
  dict_get "id" desired_realm = Some id ->
  exists r,
    run E params false _diff s =
      (ExitJson r, s1,
       [CallGet realm; CallUpdate desired_realm realm; CallGet realm])
    /\ sanitize_cr before_realm = inr (existing r)
    /\ sanitize_cr after_realm = inr (end_state r)
    /\ msg r = updated_msg E id
    /\ diff r = if _diff
                then [("before", VDict (existing r));
                      ("after", VDict (end_state r))]
                else [].
Proof.
  intros realm desired_realm Htok Hget Hne Hstate Hcs Hbefore Hup Hafter
    Hok Hid.
  subst realm desired_realm.
  destruct (attributes_ok_sanitize _ Hcs) as [p Hp].
  destruct (attributes_ok_sanitize _ Hbefore) as [bs Hbs].
  destruct (attributes_ok_sanitize _ Hok) as [es Hes].
  destruct before_realm as [|kv before]; [congruence|].
  destruct _diff;
    (eexists; split; [run_forward; reflexivity|]);
    destruct (dict_eq (kv :: before) after_realm); repeat split;
    first [exact Hbs | exact Hes].
Qed.

Lemma update_real_run_witness :
  exists r,
    run Demo.env
      (Demo.params (VStr "test") (VStr "test") "present"
                   [("enabled", VBool false)]) false true Demo.server
    = (ExitJson r,
       [("test", VDict [("id", VStr "test"); ("realm", VStr "test");
                        ("enabled", VBool false)])],
       [CallGet (VStr "test");
        CallUpdate [("id", VStr "test"); ("realm", VStr "test");
                    ("enabled", VBool false)] (VStr "test");
        CallGet (VStr "test")])
    /\ sanitize_cr Demo.test_realm = inr (existing r)
    /\ sanitize_cr [("id", VStr "test"); ("realm", VStr "test");
                    ("enabled", VBool false)] = inr (end_state r)
    /\ msg r = "Realm test has been updated."
    /\ diff r = [("before", VDict (existing r));
                 ("after", VDict (end_state r))].
Proof.
  refine (update_real_run Demo.env
            (Demo.params (VStr "test") (VStr "test") "present"
                         [("enabled", VBool false)])
            true Demo.server _ tt Demo.test_realm _ (VStr "test")
            eq_refl eq_refl _ eq_refl eq_refl eq_refl eq_refl eq_refl
            eq_refl eq_refl).
  discriminate.
Defined.

(** X9. A fetch that finds nothing after a successful write is not handled:
    [sanitize_cr] is applied to [None] and the module dies with
    [AttributeError], after the create or update call has been made. *)
Theorem refetch_nothing_raises (E : collaborators) (params : dict)
    (_diff : bool) (s s1 : remote E) (c : conn E) :
  let realm := params_get "realm" params in
  let changeset := build_changeset E params in
  get_token E params = inr c ->
  attributes_ok changeset = true ->
  (forall fetched id,
     get_realm_by_id E c realm s = ApiOk fetched ->
     fetched = None \/ fetched = Some [] ->
     py_eq (params_get "state" params) (VStr "absent") = false ->
     dict_get "id" changeset = Some id ->
     create_realm E c changeset s = ApiOk s1 ->
     get_realm_by_id E c id s1 = ApiOk None ->
     run E params false _diff s =
       (Raise AttributeError, s1,
        [CallGet realm; CallCreate changeset; CallGet id]))
  /\ (forall before_realm,
        let desired_realm := dict_update before_realm changeset in
        get_realm_by_id E c realm s = ApiOk (Some before_realm) ->
        before_realm <> [] ->
        py_eq (params_get "state" params) (VStr "present") = true ->
        attributes_ok before_realm = true ->
        update_realm E c desired_realm realm s = ApiOk s1 ->
        get_realm_by_id E c realm s1 = ApiOk None ->
        run E params false _diff s =
          (Raise AttributeError, s1,
           [CallGet realm; CallUpdate desired_realm realm; CallGet realm])).
Proof.
  intros realm changeset Htok Hattrs. subst realm changeset.
  destruct (attributes_ok_sanitize _ Hattrs) as [p Hp].
  split.
  - intros fetched id Hget Habsent Hstate Hid Hcreate Hafter.
    pose proof sanitize_cr_nil as Hnil.
    pose proof (dict_update_nil _ (build_changeset_wf E params)) as Hdes.
    assert (Hin : dict_in "id" (build_changeset E params) = true)
      by (unfold dict_in; now rewrite Hid).
    assert (Hdes' : sanitize_cr (dict_update [] (build_changeset E params))
                    = inr p) by (now rewrite Hdes).
    rewrite <- Hdes in Hid, Hin, Hcreate.
    destruct Habsent as [-> | ->]; destruct _diff;
      run_forward; rewrite Hdes; reflexivity.
  - intros before_realm desired_realm Hget Hne Hstate Hbefore Hup Hafter.
    subst desired_realm.
    destruct (attributes_ok_sanitize _ Hbefore) as [bs Hbs].
    destruct before_realm as [|kv before]; [congruence|].
    destruct _diff; run_forward; reflexivity.
Qed.

Lemma refetch_nothing_raises_witness :
  run Faulty.lossy
      (Demo.params (VStr "test") (VStr "test") "present"
                   [("enabled", VBool false)])
      false false Demo.server
  = (Raise AttributeError, [],
     [CallGet (VStr "test");
      CallUpdate [("id", VStr "test"); ("realm", VStr "test");
                  ("enabled", VBool false)] (VStr "test");
      CallGet (VStr "test")]).
Proof.
  refine (proj2 (refetch_nothing_raises Faulty.lossy
                   (Demo.params (VStr "test") (VStr "test") "present"
                                [("enabled", VBool false)])
                   false Demo.server [] tt eq_refl eq_refl)
                Demo.test_realm eq_refl _ eq_refl eq_refl eq_refl eq_refl).
  discriminate.
Defined.

(** X10. The messages read ["id"] without a check: a real-run update whose
    merged state has no ["id"], or a real-run delete of a realm whose
    representation has no ["id"], dies with [KeyError] after the update or
    delete call has been made. *)
Theorem missing_id_raises_after_write (E : collaborators) (params : dict)
    (_diff : bool) (s s1 : remote E) (c : conn E) (before_realm : dict) :
  let realm := params_get "realm" params in
  let desired_realm := dict_update before_realm (build_changeset E params) in
  get_token E params = inr c ->
  get_realm_by_id E c realm s = ApiOk (Some before_realm) ->
  before_realm <> [] ->
  attributes_ok (build_changeset E params) = true ->
  attributes_ok before_realm = true ->
  (forall after_realm,
     py_eq (params_get "state" params) (VStr "present") = true ->
     update_realm E c desired_realm realm s = ApiOk s1 ->
     get_realm_by_id E c realm s1 = ApiOk (Some after_realm) ->
     attributes_ok after_realm = true ->
     dict_get "id" desired_realm = None ->
     run E params false _diff s =
       (Raise (KeyError "id"), s1,
        [CallGet realm; CallUpdate desired_realm realm; CallGet realm]))
  /\ (py_eq (params_get "state" params) (VStr "present") = false ->
      delete_realm E c realm s = ApiOk s1 ->
      dict_get "id" before_realm = None ->
      run E params false _diff s =
        (Raise (KeyError "id"), s1, [CallGet realm; CallDelete realm])).
Proof.
  intros realm desired_realm Htok Hget Hne Hcs Hbefore.
  subst realm desired_realm.
  destruct (attributes_ok_sanitize _ Hcs) as [p Hp].
  destruct (attributes_ok_sanitize _ Hbefore) as [bs Hbs].
  destruct before_realm as [|kv before]; [congruence|].
  split.
  - intros after_realm Hstate Hup Hafter Hok Hid.
    destruct (attributes_ok_sanitize _ Hok) as [es Hes].
    destruct _diff; run_forward; reflexivity.
  - intros Hstate Hdel Hid.
    destruct _diff; run_forward; reflexivity.
Qed.

Lemma missing_id_raises_after_write_witness :
  run Demo.env (Demo.params VNone (VStr "test") "absent" [])
      false false Faulty.anonymous_server
  = (Raise (KeyError "id"), [],
     [CallGet (VStr "test"); CallDelete (VStr "test")]).
Proof.
  refine (proj2 (missing_id_raises_after_write Demo.env
                   (Demo.params VNone (VStr "test") "absent" [])
                   false Faulty.anonymous_server [] tt
                   [("realm", VStr "test"); ("enabled", VBool true)]
                   eq_refl eq_refl _ eq_refl eq_refl)
                eq_refl eq_refl eq_refl).
  discriminate.
Defined.

(** ** What every run keeps *)

Lemma run_summary (E : collaborators) params check_mode _diff s o s' tr :
  run E params check_mode _diff s = (o, s', tr) ->
  trace_shape E params tr
  /\ (forall r, o = ExitJson r ->
        (_diff = false -> diff r = [])
        /\ (_diff = true -> keys (diff r) = ["before"; "after"])
        /\ (check_mode = true ->
            end_state r = []
            /\ (msg r = "" \/ msg r = "Realm does not exist, doing nothing."))
        /\ (changed r = false ->
            tr = [CallGet (params_get "realm" params)]
            \/ exists desired,
                 tr = [CallGet (params_get "realm" params);
                       CallUpdate desired (params_get "realm" params);
                       CallGet (params_get "realm" params)])
        /\ (exists c fetched,
              get_token E params = inr c
              /\ get_realm_by_id E c (params_get "realm" params) s
                 = ApiOk fetched
              /\ sanitize_cr (match fetched with Some d => d | None => [] end)
                 = inr (existing r))
        /\ (sanitize_cr (build_changeset E params) = inr (proposed r)
            \/ (proposed r = []
                /\ tr = [CallGet (params_get "realm" params);
                         CallDelete (params_get "realm" params)]))).
Proof.
  intros H. unfold_run. split_run H.
  all: injection H as <- <- <-; cbn [app].
  all: split;
    [ unfold trace_shape; cbv zeta;
      first [ now left
            | now (right; left)
            | right; right; left; eexists; reflexivity
            | right; right; right; left; eexists _, _; split;
              [eassumption | reflexivity]
            | right; right; right; right; left; eexists; reflexivity
            | right; right; right; right; right; left; eexists; reflexivity
            | now (right; right; right; right; right; right) ]
    | intros r Hr; try discriminate Hr; injection Hr as <-;
      unfold set_changed, set_msg, set_diff, set_proposed, set_existing,
        set_end_state;
      cbn [proposed existing end_state diff msg changed];
      repeat split;
      try solve [ intros; congruence
                | intros; reflexivity
                | intros; split; [reflexivity | auto]
                | cbn; intros; congruence
                | eexists _, _; repeat split; eassumption
                | left; eassumption
                | left; reflexivity
                | intros; left; reflexivity
                | intros; right; eexists; reflexivity
                | right; reflexivity
                | right; split; reflexivity ] ].
Qed.

Lemma run_tuple (E : collaborators) params check_mode _diff s :
  run E params check_mode _diff s =
  (outcome_of (run E params check_mode _diff s),
   remote_of (run E params check_mode _diff s),
   calls_of (run E params check_mode _diff s)).
Proof. now destruct (run E params check_mode _diff s) as [[o s'] tr]. Qed.

(** X11. Whatever the parameters, the remote state and the mode, a run calls
    the API client in one of seven ways: not at all, the fetch alone, or
    the fetch followed by one create (and the fetch of the new id), one
    update (and a second fetch) or one delete.  In check mode only the
    first two occur. *)
Theorem run_trace_shape (E : collaborators) (params : dict)
    (check_mode _diff : bool) (s : remote E) :
  trace_shape E params (calls_of (run E params check_mode _diff s))
  /\ (check_mode = true ->
      calls_of (run E params check_mode _diff s) = []
      \/ calls_of (run E params check_mode _diff s)
         = [CallGet (params_get "realm" params)]).
Proof.
  pose proof (run_summary E params check_mode _diff s _ _ _
                (run_tuple E params check_mode _diff s)) as [Hshape _].
  split; [exact Hshape|]. intros ->.
  pose proof (run_world E params true _diff s) as Hw.
  destruct (main_check_mode_quiet E params _diff s []) as (tr & Hq & Hr).
  rewrite Hq in Hw. injection Hw as _ Hc. cbn [app] in Hc.
  rewrite Hc in *. unfold trace_shape in Hshape. cbv zeta in Hshape.
  destruct Hshape as [H|[H|[[d H]|[(d & i & _ & H)|[[d H]|[[d H]|H]]]]]];
    rewrite H in *; auto; discriminate Hr.
Qed.

(** X12. [diff] is reported exactly when it was asked for: without
    [module._diff] every exit leaves it empty, with it every exit carries
    the two entries [before] and [after], in that order. *)
Theorem diff_only_when_requested (E : collaborators) (params : dict)
    (check_mode _diff : bool) (s : remote E) (r : result) :
  outcome_of (run E params check_mode _diff s) = ExitJson r ->
  (_diff = false -> diff r = [])
  /\ (_diff = true -> keys (diff r) = ["before"; "after"]).
Proof.
  intros H.
  pose proof (run_summary E params check_mode _diff s _ _ _
                (run_tuple E params check_mode _diff s)) as [_ Hr].
  destruct (Hr r H) as (H1 & H2 & _). now split.
Qed.

Lemma diff_only_when_requested_witness :
  exists r,
    outcome_of (run Demo.env
                  (Demo.params (VStr "test") (VStr "test") "absent" [])
                  true true Demo.server) = ExitJson r
    /\ keys (diff r) = ["before"; "after"].
Proof.
  eexists. split; [reflexivity|].
  exact (proj2 (diff_only_when_requested Demo.env
                  (Demo.params (VStr "test") (VStr "test") "absent" [])
                  true true Demo.server _ eq_refl) eq_refl).
Defined.

(** X13. A check-mode exit never reports an [end_state], and its message is
    empty unless nothing had to be done: the messages of a creation, an
    update and a deletion are set after the point where check mode
    exits. *)
Theorem check_mode_exit_is_bare (E : collaborators) (params : dict)
    (_diff : bool) (s : remote E) (r : result) :
  outcome_of (run E params true _diff s) = ExitJson r ->
  end_state r = []
  /\ (msg r = "" \/ msg r = "Realm does not exist, doing nothing.").
Proof.
  intros H.
  pose proof (run_summary E params true _diff s _ _ _
                (run_tuple E params true _diff s)) as [_ Hr].
  destruct (Hr r H) as (_ & _ & H3 & _). now apply H3.
Qed.

Lemma check_mode_exit_is_bare_witness :
  exists r,
    outcome_of (run Demo.env
                  (Demo.params (VStr "test") (VStr "test") "present"
                               [("enabled", VBool false)])
                  true false Demo.server) = ExitJson r
    /\ changed r = true /\ end_state r = [] /\ msg r = "".
Proof.
  eexists. split; [reflexivity|]. split; [reflexivity|].
  split; [|reflexivity].
  exact (proj1 (check_mode_exit_is_bare Demo.env
                  (Demo.params (VStr "test") (VStr "test") "present"
                               [("enabled", VBool false)])
                  false Demo.server _ eq_refl)).
Defined.

(** X14. An exit with [changed] false has made no create and no delete call:
    its trace is the fetch alone (nothing to do, or a check-mode update
    that changes nothing) or the fetch, one update and the second fetch
    that showed the realm as it was. *)
Theorem unchanged_means_no_create_or_delete (E : collaborators)
    (params : dict) (check_mode _diff : bool) (s : remote E) (r : result) :
  outcome_of (run E params check_mode _diff s) = ExitJson r ->
  changed r = false ->
  calls_of (run E params check_mode _diff s)
    = [CallGet (params_get "realm" params)]
  \/ exists desired,
       calls_of (run E params check_mode _diff s)
       = [CallGet (params_get "realm" params);
          CallUpdate desired (params_get "realm" params);
          CallGet (params_get "realm" params)].
Proof.
  intros H Hc.
  pose proof (run_summary E params check_mode _diff s _ _ _
                (run_tuple E params check_mode _diff s)) as [_ Hr].
  destruct (Hr r H) as (_ & _ & _ & H4 & _). now apply H4.
Qed.

Lemma unchanged_means_no_create_or_delete_witness :
  exists r,
    outcome_of (run Demo.env
                  (Demo.params (VStr "test") (VStr "test") "present" [])
                  false false Demo.server) = ExitJson r
    /\ changed r = false
    /\ exists desired,
         calls_of (run Demo.env
                     (Demo.params (VStr "test") (VStr "test") "present" [])
                     false false Demo.server)
         = [CallGet (VStr "test"); CallUpdate desired (VStr "test");
            CallGet (VStr "test")].
Proof.
  eexists. split; [reflexivity|]. split; [reflexivity|].
  destruct (unchanged_means_no_create_or_delete Demo.env
              (Demo.params (VStr "test") (VStr "test") "present" [])
              false false Demo.server _ eq_refl eq_refl) as [H|H].
  - discriminate H.
  - exact H.
Defined.

(** X15. Every exit reports in [existing] the sanitized realm that the first
    fetch returned (the empty dict when it returned nothing), and in
    [proposed] the sanitized changeset, except after a delete call, where
    [proposed] is empty. *)
Theorem exit_reports_fetched_and_proposed (E : collaborators) (params : dict)
    (check_mode _diff : bool) (s : remote E) (r : result) :
  outcome_of (run E params check_mode _diff s) = ExitJson r ->
  (exists c fetched,
     get_token E params = inr c
     /\ get_realm_by_id E c (params_get "realm" params) s = ApiOk fetched
     /\ sanitize_cr (match fetched with Some d => d | None => [] end)
        = inr (existing r))
  /\ (sanitize_cr (build_changeset E params) = inr (proposed r)
      \/ (proposed r = []
          /\ calls_of (run E params check_mode _diff s)
             = [CallGet (params_get "realm" params);
                CallDelete (params_get "realm" params)])).
Proof.
  intros H.
  pose proof (run_summary E params check_mode _diff s _ _ _
                (run_tuple E params check_mode _diff s)) as [_ Hr].
  destruct (Hr r H) as (_ & _ & _ & _ & H5 & H6). now split.
Qed.

Lemma exit_reports_fetched_and_proposed_witness :
  exists r,
    outcome_of (run Demo.env SamlDemo.params false false SamlDemo.server)
    = ExitJson r
    /\ existing r
       = [("id", VStr "test"); ("realm", VStr "test");
          ("attributes", VDict [(private_key, VStr redaction)])]
    /\ sanitize_cr (build_changeset Demo.env SamlDemo.params)
       = inr (proposed r).
Proof.
  eexists. split; [reflexivity|]. split; [reflexivity|].
  destruct (exit_reports_fetched_and_proposed Demo.env SamlDemo.params
              false false SamlDemo.server _ eq_refl) as [_ [H|[_ H]]].
  - exact H.
  - discriminate H.
Defined.

(** ** Equality of representations and repeated runs *)

Lemma py_eq_dict (d1 d2 : dict) :
  py_eq (VDict d1) (VDict d2)
  = Nat.eqb (length d1) (length d2) && entries_match d2 d1.
Proof.
  cbn [py_eq]. f_equal. unfold entries_match.
  induction d1 as [|[k v] d1 IH]; [reflexivity|].
  cbn [forallb fst snd]. now rewrite <- IH.
Qed.

Lemma val_ind_nested (P : val -> Prop) :
  P VNone -> (forall b, P (VBool b)) -> (forall z, P (VInt z)) ->
  (forall s, P (VStr s)) ->
  (forall l, Forall P l -> P (VList l)) ->
  (forall d, Forall (fun kv => P (snd kv)) d -> P (VDict d)) ->
  forall v, P v.
Proof.
  intros HN HB HI HS HL HD. fix IH 1. intros [| b | z | s | l | d].
  - exact HN.
  - apply HB.
  - apply HI.
  - apply HS.
  - apply HL. revert l. fix IHl 1. intros [|x l]; constructor;
      [apply IH | apply IHl].
  - apply HD. revert d. fix IHd 1. intros [|[k x] d]; constructor;
      [apply IH | apply IHd].
Qed.

Lemma distinct_NoDup (l : list string) : distinct l = true <-> NoDup l.
Proof.
  induction l as [|k l IH]; simpl.
  - split; [constructor | reflexivity].
  - rewrite andb_true_iff, negb_true_iff, IH, NoDup_cons, list_elem_of_In.
    pose proof (existsb_eqb_In k l) as H.
    destruct (existsb (String.eqb k) l); intuition congruence.
Qed.

Lemma wf_val_dict (d : dict) :
  wf_val (VDict d) = true <->
  wf_dict d /\ forall k v, In (k, v) d -> wf_val v = true.
Proof.
  cbn [wf_val]. rewrite andb_true_iff, distinct_NoDup, forallb_forall.
  unfold wf_dict, keys. split; intros [H1 H2]; split; auto.
  - intros k v Hin. apply (H2 (k, v) Hin).
  - intros [k v] Hin. now apply (H2 k v).
Qed.

Lemma dict_get_In {V} (k : string) (v : V) (d : list (string * V)) :
  dict_get k d = Some v -> In (k, v) d.
Proof.
  induction d as [|[k' v'] d IH]; simpl; [discriminate|].
  destruct (String.eqb_spec k k') as [->|Hne].
  - intros [= ->]. now left.
  - intros H. right. now apply IH.
Qed.

Lemma In_dict_get {V} (k : string) (v : V) (d : list (string * V)) :
  wf_dict d -> In (k, v) d -> dict_get k d = Some v.
Proof.
  unfold wf_dict, keys. induction d as [|[k' v'] d IH]; simpl; [tauto|].
  intros Hwf Hin. apply NoDup_cons in Hwf. destruct Hwf as [Hk Hwf].
  destruct Hin as [[= -> ->]|Hin]; [now rewrite String.eqb_refl|].
  destruct (String.eqb_spec k k') as [->|Hne]; [|now apply IH].
  exfalso. apply Hk. apply list_elem_of_In. apply in_map_iff.
  now exists (k', v).
Qed.

(** On well-formed values [==] is reflexive. *)
Lemma py_eq_refl (v : val) : wf_val v = true -> py_eq v v = true.
Proof.
  induction v as [| b | z | s | l IH | d IH] using val_ind_nested;
    intros Hwf.
  - reflexivity.
  - now destruct b.
  - apply Z.eqb_refl.
  - apply String.eqb_refl.
  - cbn [py_eq]. cbn [wf_val] in Hwf.
    induction l as [|x l IHl]; [reflexivity|].
    cbn [forallb] in Hwf. apply andb_true_iff in Hwf. destruct Hwf as [Hx Hl].
    inversion IH as [|? ? Px Pl]; subst.
    rewrite (Px Hx). cbn [andb]. now apply IHl.
  - rewrite py_eq_dict, Nat.eqb_refl.
    cbn [andb]. apply wf_val_dict in Hwf. destruct Hwf as [Hnd Hvals].
    unfold entries_match. apply forallb_forall. intros [k v] Hin.
    cbn [fst snd]. rewrite (In_dict_get k v d Hnd Hin).
    rewrite Forall_forall in IH.
    apply (IH (k, v)); [now apply list_elem_of_In | now apply (Hvals k v)].
Qed.

Section UpdateFacts.
Implicit Types (b cs d : dict) (k : string) (v : val).

Lemma length_dict_update_ge b cs : length b <= length (dict_update b cs).
Proof.
  revert b. induction cs as [|[k v] cs IH]; intros b; [reflexivity|].
  rewrite dict_update_cons. etransitivity; [|apply IH].
  rewrite length_dict_set. destruct (dict_in k b); lia.
Qed.

Lemma dict_update_grows b cs k :
  In k (keys cs) -> ~ In k (keys b) -> length b < length (dict_update b cs).
Proof.
  revert b. induction cs as [|[k1 v1] cs IH]; intros b Hin Hnot; [destruct Hin|].
  rewrite dict_update_cons.
  pose proof (length_dict_set k1 v1 b) as Hlen.
  pose proof (keys_set k1 v1 b) as Hkeys.
  destruct (dict_in k1 b) eqn:Hk1.
  - rewrite <- Hlen. apply IH.
    + destruct Hin as [<-|Hin]; [|exact Hin].
      exfalso. apply Hnot. now apply dict_in_keys.
    + now rewrite Hkeys.
  - pose proof (length_dict_update_ge (dict_set k1 v1 b) cs). lia.
Qed.

Lemma dict_update_same_length b cs :
  (forall k, In k (keys cs) -> In k (keys b)) ->
  length (dict_update b cs) = length b.
Proof.
  revert b. induction cs as [|[k v] cs IH]; intros b Hsub; [reflexivity|].
  rewrite dict_update_cons.
  assert (Hk : dict_in k b = true) by (apply dict_in_keys, Hsub; now left).
  rewrite IH.
  - now rewrite length_dict_set, Hk.
  - intros k' Hk'. rewrite keys_set, Hk. apply Hsub. now right.
Qed.

Lemma dict_update_absorbed d cs :
  (forall k v, In (k, v) cs -> dict_get k d = Some v) -> dict_update d cs = d.
Proof.
  induction cs as [|[k v] cs IH]; intros H; [reflexivity|].
  rewrite dict_update_cons, dict_set_same by (apply H; now left).
  apply IH. intros k' v' Hin. apply H. now right.
Qed.

Lemma dict_update_twice b cs :
  wf_dict cs -> dict_update (dict_update b cs) cs = dict_update b cs.
Proof.
  intros Hwf. apply dict_update_absorbed. intros k v Hin.
  rewrite dict_get_update by exact Hwf.
  now rewrite (In_dict_get k v cs Hwf Hin).
Qed.

Lemma wf_val_dict_update b cs :
  wf_val (VDict b) = true -> wf_val (VDict cs) = true ->
  wf_val (VDict (dict_update b cs)) = true.
Proof.
  rewrite !wf_val_dict. intros [Hb Hvb] [Hcs Hvcs]. split.
  - now apply wf_dict_update.
  - intros k v Hin.
    apply In_dict_get in Hin; [|now apply wf_dict_update].
    rewrite dict_get_update in Hin by exact Hcs.
    destruct (dict_get k cs) as [w|] eqn:Hk.
    + injection Hin as <-. apply (Hvcs k). now apply dict_get_In.
    + apply (Hvb k). now apply dict_get_In.
Qed.

(** The existing realm equals the merged state exactly when every entry of
    the changeset is already there with an equal value. *)
Lemma dict_eq_update_iff b cs :
  wf_val (VDict b) = true -> wf_dict cs ->
  dict_eq b (dict_update b cs) = true <->
  forall k v, dict_get k cs = Some v ->
              exists v', dict_get k b = Some v' /\ py_eq v' v = true.
Proof.
  intros Hb Hcs. apply wf_val_dict in Hb. destruct Hb as [Hwb Hvb].
  unfold dict_eq. rewrite py_eq_dict, andb_true_iff, Nat.eqb_eq.
  unfold entries_match. rewrite forallb_forall. split.
  - intros [Hlen Hall] k v Hk.
    destruct (dict_get k b) as [v'|] eqn:Hkb.
    + exists v'. split; [reflexivity|].
      specialize (Hall (k, v') (dict_get_In _ _ _ Hkb)). cbn [fst snd] in Hall.
      now rewrite dict_get_update, Hk in Hall by exact Hcs.
    + exfalso. apply dict_get_None in Hkb.
      pose proof (dict_update_grows b cs k) as Hgrow.
      assert (In k (keys cs)).
      { apply dict_get_In in Hk. unfold keys. apply in_map_iff.
        now exists (k, v). }
      specialize (Hgrow H Hkb). lia.
  - intros Hpresent. split.
    + symmetry. apply dict_update_same_length. intros k Hk.
      apply dict_in_keys in Hk. unfold dict_in in Hk.
      destruct (dict_get k cs) as [v|] eqn:Hkc; [|discriminate].
      destruct (Hpresent k v Hkc) as (v' & Hv' & _).
      apply dict_in_keys. unfold dict_in. now rewrite Hv'.
    + intros [k v'] Hin. cbn [fst snd].
      pose proof (In_dict_get k v' b Hwb Hin) as Hkb.
      rewrite dict_get_update by exact Hcs.
      destruct (dict_get k cs) as [v|] eqn:Hkc.
      * destruct (Hpresent k v Hkc) as (v'' & Hv'' & Heq). congruence.
      * rewrite Hkb. apply py_eq_refl. now apply (Hvb k).
Qed.
End UpdateFacts.

Lemma build_changeset_wf_val (E : collaborators) (params : dict) :
  (forall k v, In (k, v) params -> wf_val v = true) ->
  wf_val (VDict (build_changeset E params)) = true.
Proof.
  intros Hp. apply wf_val_dict. split; [apply build_changeset_wf|].
  intros k v Hin.
  apply In_dict_get in Hin; [|apply build_changeset_wf].
  rewrite build_changeset_fill in Hin. apply fill_get in Hin.
  destruct Hin as [Hin|(x & _ & _ & Hv)]; [discriminate|].
  unfold params_get in Hv. destruct (dict_get x params) as [w|] eqn:Hx.
  - subst w. apply (Hp x). now apply dict_get_In.
  - now subst v.
Qed.

(** X16. Updating, check mode: the module reports [changed] false exactly
    when every entry of the changeset is already in the existing realm
    with an equal value; a key the realm does not have, or one value that
    differs, makes it report a change. *)
Theorem check_mode_update_detects_noop (E : collaborators) (params : dict)
    (_diff : bool) (s : remote E) (c : conn E) (before_realm : dict) :
  let realm := params_get "realm" params in
  let changeset := build_changeset E params in
  get_token E params = inr c ->
  get_realm_by_id E c realm s = ApiOk (Some before_realm) ->
  before_realm <> [] ->
  py_eq (params_get "state" params) (VStr "present") = true ->
  attributes_ok changeset = true ->
  attributes_ok before_realm = true ->
  wf_val (VDict before_realm) = true ->
  exists r,
    run E params true _diff s = (ExitJson r, s, [CallGet realm])
    /\ (changed r = false <->
        forall k v, dict_get k changeset = Some v ->
                    exists v', dict_get k before_realm = Some v'
                               /\ py_eq v' v = true).
Proof.
  intros realm changeset Htok Hget Hne Hstate Hcs Hbefore Hwf.
  subst realm changeset.
  destruct (attributes_ok_sanitize _ Hcs) as [p Hp].
  destruct (attributes_ok_sanitize _ Hbefore) as [bs Hbs].
  destruct (desired_sanitizes E params before_realm Hcs Hbefore) as [ds Hds].
  pose proof (dict_eq_update_iff before_realm (build_changeset E params) Hwf
                (build_changeset_wf E params)) as Hiff.
  destruct before_realm as [|kv before]; [congruence|].
  destruct _diff; (eexists; split; [run_forward; reflexivity|]);
    cbn [changed set_changed]; rewrite <- Hiff;
    destruct (dict_eq (kv :: before)
                (dict_update (kv :: before) (build_changeset E params)));
    cbn [negb]; split; congruence.
Qed.

Lemma check_mode_update_detects_noop_witness :
  exists r,
    run Demo.env
      (Demo.params (VStr "test") (VStr "test") "present"
                   [("enabled", VInt 1)]) true false Demo.server
    = (ExitJson r, Demo.server, [CallGet (VStr "test")])
    /\ (changed r = false <->
        forall k v,
          dict_get k [("id", VStr "test"); ("realm", VStr "test");
                      ("enabled", VInt 1)] = Some v ->
          exists v', dict_get k Demo.test_realm = Some v'
                     /\ py_eq v' v = true).
Proof.
  refine (check_mode_update_detects_noop Demo.env
            (Demo.params (VStr "test") (VStr "test") "present"
                         [("enabled", VInt 1)])
            false Demo.server tt Demo.test_realm
            eq_refl eq_refl _ eq_refl eq_refl eq_refl eq_refl).
  discriminate.
Defined.

(** The exit of a real-run update, from the equations of its steps. *)
Lemma update_real_exit (E : collaborators) (params : dict) (_diff : bool)
    (s s1 : remote E) (c : conn E) (before_realm after_realm p bs es : dict)
    (id : val) :
  let realm := params_get "realm" params in
  let desired_realm := dict_update before_realm (build_changeset E params) in
  get_token E params = inr c ->
  get_realm_by_id E c realm s = ApiOk (Some before_realm) ->
  before_realm <> [] ->
  py_eq (params_get "state" params) (VStr "present") = true ->
  sanitize_cr (build_changeset E params) = inr p ->
  sanitize_cr before_realm = inr bs ->
  update_realm E c desired_realm realm s = ApiOk s1 ->
  get_realm_by_id E c realm s1 = ApiOk (Some after_realm) ->
  sanitize_cr after_realm = inr es ->
  dict_get "id" desired_realm = Some id ->
  exists r,
    run E params false _diff s =
      (ExitJson r, s1,
       [CallGet realm; CallUpdate desired_realm realm; CallGet realm])
    /\ changed r = negb (dict_eq before_realm after_realm).
Proof.
  intros realm desired_realm Htok Hget Hne Hstate Hp Hbs Hup Hafter Hes Hid.
  subst realm desired_realm.
  destruct before_realm as [|kv before]; [congruence|].
  destruct _diff; (eexists; split; [run_forward; reflexivity|]);
    destruct (dict_eq (kv :: before) after_realm); reflexivity.
Qed.

(** X17. Idempotence of the real run against a remote system that stores what
    it is sent: the first update reports [changed] as the existing realm
    and the merged state differ, and the same parameters applied again to
    what the first run left are sent as the same update and report
    [changed] false. *)
Theorem real_run_update_is_idempotent (E : collaborators) (params : dict)
    (_diff : bool) (s s1 s2 : remote E) (c : conn E) (before_realm : dict) :
  let realm := params_get "realm" params in
  let desired_realm := dict_update before_realm (build_changeset E params) in
  get_token E params = inr c ->
  get_realm_by_id E c realm s = ApiOk (Some before_realm) ->
  before_realm <> [] ->
  py_eq (params_get "state" params) (VStr "present") = true ->
  attributes_ok (build_changeset E params) = true ->
  attributes_ok before_realm = true ->
  wf_val (VDict before_realm) = true ->
  forallb (fun kv => wf_val (snd kv)) params = true ->
  dict_in "id" before_realm = true ->
  update_realm E c desired_realm realm s = ApiOk s1 ->
  get_realm_by_id E c realm s1 = ApiOk (Some desired_realm) ->
  update_realm E c desired_realm realm s1 = ApiOk s2 ->
  get_realm_by_id E c realm s2 = ApiOk (Some desired_realm) ->
  exists r1 r2,
    run E params false _diff s =
      (ExitJson r1, s1,
       [CallGet realm; CallUpdate desired_realm realm; CallGet realm])
    /\ changed r1 = negb (dict_eq before_realm desired_realm)
    /\ run E params false _diff s1 =
         (ExitJson r2, s2,
          [CallGet realm; CallUpdate desired_realm realm; CallGet realm])
    /\ changed r2 = false.
Proof.
  intros realm desired_realm Htok Hget Hne Hstate Hcs Hbefore Hwf Hwfp Hid
    Hup1 Hget1 Hup2 Hget2.
  subst realm desired_realm.
  destruct (attributes_ok_sanitize _ Hcs) as [p Hp].
  destruct (attributes_ok_sanitize _ Hbefore) as [bs Hbs].
  destruct (desired_sanitizes E params before_realm Hcs Hbefore) as [ds Hds].
  pose proof (dict_update_twice before_realm _ (build_changeset_wf E params))
    as Htwice.
  pose proof (dict_update_nonempty before_realm (build_changeset E params) Hne)
    as Hne'.
  assert (Hrefl : dict_eq (dict_update before_realm (build_changeset E params))
                          (dict_update before_realm (build_changeset E params))
                  = true).
  { apply py_eq_refl, wf_val_dict_update; [exact Hwf|].
    apply build_changeset_wf_val. intros k v Hin.
    rewrite forallb_forall in Hwfp. apply (Hwfp (k, v) Hin). }
  assert (Hidd : exists id,
             dict_get "id" (dict_update before_realm (build_changeset E params))
             = Some id).
  { assert (H : dict_in "id" (dict_update before_realm
                                (build_changeset E params)) = true)
      by (rewrite dict_in_update, Hid; apply orb_true_r).
    unfold dict_in in H. destruct (dict_get "id" _) as [id|]; [|discriminate].
    now exists id. }
  destruct Hidd as [id Hidd].
  destruct (update_real_exit E params _diff s s1 c before_realm _ p bs ds id
              Htok Hget Hne Hstate Hp Hbs Hup1 Hget1 Hds Hidd)
    as (r1 & Hrun1 & Hch1).
  pose proof (update_real_exit E params _diff s1 s2 c
                (dict_update before_realm (build_changeset E params))
                (dict_update before_realm (build_changeset E params))
                p ds ds id Htok Hget1 Hne' Hstate Hp Hds) as Hsecond.
  cbv zeta in Hsecond. rewrite Htwice in Hsecond.
  destruct (Hsecond Hup2 Hget2 Hds Hidd) as (r2 & Hrun2 & Hch2).
  exists r1, r2. repeat split; try assumption.
  now rewrite Hch2, Hrefl.
Qed.

Lemma real_run_update_is_idempotent_witness :
  exists r1 r2,
    run Demo.env
      (Demo.params (VStr "test") (VStr "test") "present"
                   [("enabled", VBool false)]) false false Demo.server
    = (ExitJson r1,
       [("test", VDict [("id", VStr "test"); ("realm", VStr "test");
                        ("enabled", VBool false)])],
       [CallGet (VStr "test");
        CallUpdate [("id", VStr "test"); ("realm", VStr "test");
                    ("enabled", VBool false)] (VStr "test");
        CallGet (VStr "test")])
    /\ changed r1 = true
    /\ run Demo.env
         (Demo.params (VStr "test") (VStr "test") "present"
                      [("enabled", VBool false)]) false false
         [("test", VDict [("id", VStr "test"); ("realm", VStr "test");
                          ("enabled", VBool false)])]
       = (ExitJson r2,
          [("test", VDict [("id", VStr "test"); ("realm", VStr "test");
                           ("enabled", VBool false)])],
          [CallGet (VStr "test");
           CallUpdate [("id", VStr "test"); ("realm", VStr "test");
                       ("enabled", VBool false)] (VStr "test");
           CallGet (VStr "test")])
    /\ changed r2 = false.
Proof.
  refine (real_run_update_is_idempotent Demo.env
            (Demo.params (VStr "test") (VStr "test") "present"
                         [("enabled", VBool false)])
            false Demo.server _ _ tt Demo.test_realm
            eq_refl eq_refl _ eq_refl eq_refl eq_refl eq_refl eq_refl
            eq_refl eq_refl eq_refl eq_refl eq_refl).
  discriminate.
Defined.

(** * Part V: what the changed flag of an update compares *)

(** ** Python equality and structural equality *)

Lemma In_keys_dict_get (k : string) (d : dict) :
  In k (keys d) <-> exists v, dict_get k d = Some v.
Proof.
  rewrite <- dict_in_keys. unfold dict_in.
  destruct (dict_get k d) as [v|]; split; try discriminate; eauto.
  now intros [v [=]].
Qed.

Lemma same_keys_same_length (d1 d2 : dict) :
  wf_dict d1 -> wf_dict d2 ->
  (forall k, In k (keys d1) <-> In k (keys d2)) -> length d1 = length d2.
Proof.
  unfold wf_dict. rewrite !NoDup_ListNoDup. intros H1 H2 Hk.
  assert (length (keys d1) = length (keys d2)).
  { apply Nat.le_antisymm; apply List.NoDup_incl_length; trivial;
      intros k; apply Hk. }
  unfold keys in *. now rewrite !length_map in *.
Qed.

Lemma more_keys_same_length (d1 d2 : dict) (k : string) :
  wf_dict d1 -> length d1 = length d2 ->
  (forall k, In k (keys d1) -> In k (keys d2)) ->
  In k (keys d2) -> In k (keys d1).
Proof.
  unfold wf_dict. rewrite NoDup_ListNoDup. intros H1 Hlen Hsub.
  apply (List.NoDup_length_incl H1); [|exact Hsub].
  unfold keys. rewrite !length_map. lia.
Qed.

(** [d1 == d2] on dicts with distinct keys, key by key. *)
Lemma dict_eq_lookups (R : val -> val -> Prop) (d1 d2 : dict) :
  wf_dict d1 -> wf_dict d2 ->
  (forall k v w, In (k, v) d1 -> In (k, w) d2 ->
                 (py_eq v w = true <-> R v w)) ->
  py_eq (VDict d1) (VDict d2) = true <->
  forall k,
    (dict_get k d1 = None /\ dict_get k d2 = None)
    \/ (exists v w, dict_get k d1 = Some v /\ dict_get k d2 = Some w /\ R v w).
Proof.
  intros H1 H2 HR.
  rewrite py_eq_dict, andb_true_iff, Nat.eqb_eq.
  unfold entries_match. rewrite forallb_forall. split.
  - intros [Hlen Hall] k.
    assert (Hsub : forall k, In k (keys d1) -> In k (keys d2)).
    { intros k' Hk'. apply In_keys_dict_get in Hk'. destruct Hk' as [v Hv].
      specialize (Hall (k', v) (dict_get_In _ _ _ Hv)). cbn [fst snd] in Hall.
      apply In_keys_dict_get.
      destruct (dict_get k' d2) as [w|]; [eauto | discriminate]. }
    destruct (dict_get k d1) as [v|] eqn:Hk1.
    + right. pose proof (dict_get_In _ _ _ Hk1) as Hin.
      specialize (Hall (k, v) Hin). cbn [fst snd] in Hall.
      destruct (dict_get k d2) as [w|] eqn:Hk2; [|discriminate].
      exists v, w. repeat split. apply (HR k); trivial.
      now apply dict_get_In.
    + left. split; [reflexivity|].
      apply dict_get_None. intros Hk2. apply dict_get_None in Hk1.
      apply Hk1. now apply (more_keys_same_length d1 d2).
  - intros H. split.
    + apply same_keys_same_length; trivial. intros k.
      rewrite !In_keys_dict_get.
      destruct (H k) as [[Ha Hb]|(v & w & Ha & Hb & _)]; rewrite Ha, Hb;
        split; intros [x Hx]; try discriminate; eauto.
    + intros [k v] Hin. cbn [fst snd].
      pose proof (In_dict_get k v d1 H1 Hin) as Hk1.
      destruct (H k) as [[Ha _]|(v0 & w & Ha & Hb & Hvw)]; [congruence|].
      rewrite Hb. assert (v0 = v) by congruence. subst v0.
      apply (HR k); trivial. now apply dict_get_In.
Qed.

(** On values whose dicts have distinct keys, [==] is structural equality. *)
Lemma py_eq_structurally_equal (v : val) :
  forall w, wf_val v = true -> wf_val w = true ->
            (py_eq v w = true <-> structurally_equal v w).
Proof.
  induction v as [| b | z | s | l IH | d IH] using val_ind_nested;
    intros w Hv Hw.
  - destruct w; cbn [py_eq]; split; intros H; try discriminate;
      try constructor; inversion H.
  - destruct w as [| b' | z' | | |]; cbn [py_eq]; split; intros H;
      try discriminate; try (now inversion H).
    + apply Bool.eqb_prop in H. subst. constructor.
    + inversion H; subst. now destruct b'.
    + apply Z.eqb_eq in H. subst. constructor.
    + inversion H; subst. apply Z.eqb_refl.
  - destruct w as [| b' | z' | | |]; cbn [py_eq]; split; intros H;
      try discriminate; try (now inversion H).
    + apply Z.eqb_eq in H. subst. constructor.
    + inversion H; subst. apply Z.eqb_refl.
    + apply Z.eqb_eq in H. subst. constructor.
    + inversion H; subst. apply Z.eqb_refl.
  - destruct w; cbn [py_eq]; split; intros H;
      try discriminate; try (now inversion H).
    + apply String.eqb_eq in H. subst. constructor.
    + inversion H; subst. apply String.eqb_refl.
  - destruct w as [| | | | l' |]; try (split; intros H; [discriminate H | inversion H]).
    cbn [py_eq]. cbn [wf_val] in Hv, Hw.
    transitivity (Forall2 structurally_equal l l');
      [|split; [apply se_list | now inversion 1]].
    revert l' Hw. induction l as [|x l IHl]; intros [|y l'] Hw.
    + split; [constructor | reflexivity].
    + split; [discriminate | inversion 1].
    + split; [discriminate | inversion 1].
    + cbn [forallb] in Hv, Hw.
      apply andb_true_iff in Hv, Hw. destruct Hv as [Hx Hl], Hw as [Hy Hl'].
      inversion IH as [|? ? Px Pl]; subst.
      rewrite andb_true_iff, (Px y Hx Hy), (IHl Pl Hl l' Hl').
      split; [intros []; now constructor | inversion 1; now subst].
  - destruct w as [| | | | | d']; try (split; intros H; [discriminate H | inversion H]).
    apply wf_val_dict in Hv, Hw. destruct Hv as [H1 Hv1], Hw as [H2 Hv2].
    rewrite (dict_eq_lookups structurally_equal d d' H1 H2).
    + split; [apply se_dict | now inversion 1].
    + intros k v w Hin1 Hin2. rewrite Forall_forall in IH.
      apply (IH (k, v)); [now apply list_elem_of_In | eauto | eauto].
Qed.

(** ** The exits of an update *)

Lemma dict_eq_structurally_equal (d1 d2 : dict) (x : bool) :
  wf_val (VDict d1) = true -> wf_val (VDict d2) = true ->
  x = negb (dict_eq d1 d2) ->
  (x = false <-> structurally_equal (VDict d1) (VDict d2)).
Proof.
  intros H1 H2 ->.
  rewrite <- (py_eq_structurally_equal _ _ H1 H2), negb_false_iff.
  reflexivity.
Qed.

Lemma wf_val_desired (E : collaborators) (params before_realm : dict) :
  wf_val (VDict before_realm) = true ->
  forallb (fun kv => wf_val (snd kv)) params = true ->
  wf_val (VDict (dict_update before_realm (build_changeset E params))) = true.
Proof.
  intros Hb Hp. apply wf_val_dict_update; [exact Hb|].
  apply build_changeset_wf_val. intros k v Hin.
  rewrite forallb_forall in Hp. apply (Hp (k, v) Hin).
Qed.

(** The exit of a check-mode update, from the equations of its steps. *)
Lemma update_check_result (E : collaborators) (params : dict) (_diff : bool)
    (s : remote E) (c : conn E) (before_realm p bs ds : dict) :
  let realm := params_get "realm" params in
  let desired_realm := dict_update before_realm (build_changeset E params) in
  get_token E params = inr c ->
  get_realm_by_id E c realm s = ApiOk (Some before_realm) ->
  before_realm <> [] ->
  py_eq (params_get "state" params) (VStr "present") = true ->
  sanitize_cr (build_changeset E params) = inr p ->
  sanitize_cr before_realm = inr bs ->
  sanitize_cr desired_realm = inr ds ->
  exists r,
    run E params true _diff s = (ExitJson r, s, [CallGet realm])
    /\ changed r = negb (dict_eq before_realm desired_realm)
    /\ proposed r = p /\ existing r = bs.
Proof.
  intros realm desired_realm Htok Hget Hne Hstate Hp Hbs Hds.
  subst realm desired_realm.
  destruct before_realm as [|kv before]; [congruence|].
  destruct _diff; (eexists; split; [run_forward; reflexivity|]);
    repeat split.
Qed.

(** The exit of a real-run update with what it reports. *)
Lemma update_real_result (E : collaborators) (params : dict) (_diff : bool)
    (s s1 : remote E) (c : conn E) (before_realm after_realm p bs es : dict)
    (id : val) :
  let realm := params_get "realm" params in
  let desired_realm := dict_update before_realm (build_changeset E params) in
  get_token E params = inr c ->
  get_realm_by_id E c realm s = ApiOk (Some before_realm) ->
  before_realm <> [] ->
  py_eq (params_get "state" params) (VStr "present") = true ->
  sanitize_cr (build_changeset E params) = inr p ->
  sanitize_cr before_realm = inr bs ->
  update_realm E c desired_realm realm s = ApiOk s1 ->
  get_realm_by_id E c realm s1 = ApiOk (Some after_realm) ->
  sanitize_cr after_realm = inr es ->
  dict_get "id" desired_realm = Some id ->
  exists r,
    run E params false _diff s =
      (ExitJson r, s1,
       [CallGet realm; CallUpdate desired_realm realm; CallGet realm])
    /\ changed r = negb (dict_eq before_realm after_realm)
    /\ proposed r = p /\ existing r = bs /\ end_state r = es.
Proof.
  intros realm desired_realm Htok Hget Hne Hstate Hp Hbs Hup Hafter Hes Hid.
  subst realm desired_realm.
  destruct before_realm as [|kv before]; [congruence|].
  destruct _diff; (eexists; split; [run_forward; reflexivity|]);
    destruct (dict_eq (kv :: before) after_realm); repeat split.
Qed.

Lemma update_call_unconditional (E : collaborators) (params : dict)
    (_diff : bool) (s : remote E) (c : conn E) (before_realm p bs : dict) :
  let realm := params_get "realm" params in
  let desired_realm := dict_update before_realm (build_changeset E params) in
  get_token E params = inr c ->
  get_realm_by_id E c realm s = ApiOk (Some before_realm) ->
  before_realm <> [] ->
  py_eq (params_get "state" params) (VStr "present") = true ->
  sanitize_cr (build_changeset E params) = inr p ->
  sanitize_cr before_realm = inr bs ->
  exists rest,
    calls_of (run E params false _diff s) =
    CallGet realm :: CallUpdate desired_realm realm :: rest.
Proof.
  intros realm desired_realm Htok Hget Hne Hstate Hp Hbs.
  subst realm desired_realm.
  destruct before_realm as [|kv before]; [congruence|].
  remember (run E params false _diff s) as x eqn:Hx.
  unfold_run. rewrite Htok in Hx. cbn [fst snd app] in Hx.
  rewrite Hget in Hx. cbn [fst snd app] in Hx.
  rewrite Hp in Hx. cbn [fst snd app] in Hx.
  rewrite Hbs in Hx. cbn [fst snd app] in Hx.
  rewrite Hstate in Hx.
  split_run Hx; subst x; cbn [fst snd app]; eexists; reflexivity.
Qed.

(** C1. Updating (a realm was found, [state] is [present]).  In check mode
    the run exits having made no call but the fetch, and [changed] is the
    negation of [before_realm == desired_realm]: on representations whose
    keys are distinct it is false exactly when the existing realm and the
    merged state are structurally equal.  In a real run the update call
    follows the fetch whatever the two representations are, and once the
    update and the second fetch have succeeded [changed] is the negation of
    [before_realm == after_realm]: false exactly when the existing realm
    and the re-fetched one are structurally equal. *)
Theorem update_changed_flag (E : collaborators) (params : dict)
    (_diff : bool) (s : remote E) (c : conn E) (before_realm : dict) :
  let realm := params_get "realm" params in
  let desired_realm := dict_update before_realm (build_changeset E params) in
  get_token E params = inr c ->
  get_realm_by_id E c realm s = ApiOk (Some before_realm) ->
  before_realm <> [] ->
  py_eq (params_get "state" params) (VStr "present") = true ->
  attributes_ok (build_changeset E params) = true ->
  attributes_ok before_realm = true ->
  (exists r,
     run E params true _diff s = (ExitJson r, s, [CallGet realm])
     /\ changed r = negb (dict_eq before_realm desired_realm)
     /\ (wf_val (VDict before_realm) = true ->
         forallb (fun kv => wf_val (snd kv)) params = true ->
         (changed r = false <->
          structurally_equal (VDict before_realm) (VDict desired_realm))))
  /\ (exists rest,
        calls_of (run E params false _diff s) =
        CallGet realm :: CallUpdate desired_realm realm :: rest)
  /\ (forall s' after_realm id,
        update_realm E c desired_realm realm s = ApiOk s' ->
        get_realm_by_id E c realm s' = ApiOk (Some after_realm) ->
        attributes_ok after_realm = true ->
        dict_get "id" desired_realm = Some id ->
        exists r,
          run E params false _diff s =
            (ExitJson r, s',
             [CallGet realm; CallUpdate desired_realm realm; CallGet realm])
          /\ changed r = negb (dict_eq before_realm after_realm)
          /\ (wf_val (VDict before_realm) = true ->
              wf_val (VDict after_realm) = true ->
              (changed r = false <->
               structurally_equal (VDict before_realm) (VDict after_realm)))).
Proof.
  intros realm desired_realm Htok Hget Hne Hstate Hcs Hbefore.
  destruct (attributes_ok_sanitize _ Hcs) as [p Hp].
  destruct (attributes_ok_sanitize _ Hbefore) as [bs Hbs].
  destruct (desired_sanitizes E params before_realm Hcs Hbefore) as [ds Hds].
  split; [|split].
  - destruct (update_check_result E params _diff s c before_realm p bs ds
                Htok Hget Hne Hstate Hp Hbs Hds) as (r & Hrun & Hch & _).
    exists r. split; [exact Hrun|]. split; [exact Hch|].
    intros Hwf Hwfp. apply dict_eq_structurally_equal; trivial.
    now apply wf_val_desired.
  - exact (update_call_unconditional E params _diff s c before_realm p bs
             Htok Hget Hne Hstate Hp Hbs).
  - intros s' after_realm id Hup Hafter Hattrs Hid.
    destruct (attributes_ok_sanitize _ Hattrs) as [es Hes].
    destruct (update_real_result E params _diff s s' c before_realm after_realm
                p bs es id Htok Hget Hne Hstate Hp Hbs Hup Hafter Hes Hid)
      as (r & Hrun & Hch & _).
    exists r. split; [exact Hrun|]. split; [exact Hch|].
    intros Hwf Hwfa. now apply dict_eq_structurally_equal.
Qed.

Lemma update_changed_flag_witness :
  (exists r,
     run Demo.env
       (Demo.params (VStr "test") (VStr "test") "present"
                    [("enabled", VBool false)]) true false Demo.server
     = (ExitJson r, Demo.server, [CallGet (VStr "test")])
     /\ changed r = true)
  /\ (exists r s',
        run Demo.env
          (Demo.params (VStr "test") (VStr "test") "present"
                       [("enabled", VBool false)]) false false Demo.server
        = (ExitJson r, s',
           [CallGet (VStr "test");
            CallUpdate [("id", VStr "test"); ("realm", VStr "test");
                        ("enabled", VBool false)] (VStr "test");
            CallGet (VStr "test")])
        /\ changed r = true)
  /\ (exists r,
        run Demo.env
          (Demo.params (VStr "test") (VStr "test") "present"
                       [("enabled", VBool true)]) true false Demo.server
        = (ExitJson r, Demo.server, [CallGet (VStr "test")])
        /\ changed r = false
        /\ structurally_equal (VDict Demo.test_realm)
             (VDict [("id", VStr "test"); ("realm", VStr "test");
                     ("enabled", VBool true)]))
  /\ (exists r,
        run Faulty.frozen
          (Demo.params (VStr "test") (VStr "test") "present"
                       [("enabled", VBool false)]) false false Demo.server
        = (ExitJson r, Demo.server,
           [CallGet (VStr "test");
            CallUpdate [("id", VStr "test"); ("realm", VStr "test");
                        ("enabled", VBool false)] (VStr "test");
            CallGet (VStr "test")])
        /\ changed r = false
        /\ structurally_equal (VDict Demo.test_realm) (VDict Demo.test_realm)).
Proof.
  assert (Hne : Demo.test_realm <> []) by discriminate.
  pose proof (update_changed_flag Demo.env
                (Demo.params (VStr "test") (VStr "test") "present"
                             [("enabled", VBool false)])
                false Demo.server tt Demo.test_realm
                eq_refl eq_refl Hne eq_refl eq_refl eq_refl) as H1.
  pose proof (update_changed_flag Demo.env
                (Demo.params (VStr "test") (VStr "test") "present"
                             [("enabled", VBool true)])
                false Demo.server tt Demo.test_realm
                eq_refl eq_refl Hne eq_refl eq_refl eq_refl) as H2.
  pose proof (update_changed_flag Faulty.frozen
                (Demo.params (VStr "test") (VStr "test") "present"
                             [("enabled", VBool false)])
                false Demo.server tt Demo.test_realm
                eq_refl eq_refl Hne eq_refl eq_refl eq_refl) as H3.
  cbv zeta in H1, H2, H3.
  destruct H1 as ((r1 & Hrun1 & Hch1 & _) & _ & Hreal1).
  destruct H2 as ((r2 & Hrun2 & Hch2 & Hiff2) & _).
  destruct H3 as (_ & _ & Hreal3).
  split; [|split; [|split]].
  - exists r1. split; [exact Hrun1 | exact Hch1].
  - destruct (Hreal1 _ _ (VStr "test") eq_refl eq_refl eq_refl eq_refl)
      as (r & Hrun & Hch & _).
    exists r. eexists. split; [exact Hrun | exact Hch].
  - exists r2. split; [exact Hrun2|]. split; [exact Hch2|].
    apply (Hiff2 eq_refl eq_refl). exact Hch2.
  - destruct (Hreal3 _ _ (VStr "test") eq_refl eq_refl eq_refl eq_refl)
      as (r & Hrun & Hch & Hiff).
    exists r. split; [exact Hrun|]. split; [exact Hch|].
    apply (Hiff eq_refl eq_refl). exact Hch.
Defined.

Lemma structurally_equal_get (d1 d2 : dict) (k : string) (v w : val) :
  structurally_equal (VDict d1) (VDict d2) ->
  dict_get k d1 = Some v -> dict_get k d2 = Some w ->
  structurally_equal v w.
Proof.
  inversion 1 as [| | | | | | |? ? Hall]; subst. intros H1 H2.
  destruct (Hall k) as [[Ha _]|(v0 & w0 & Ha & Hb & Hvw)]; congruence.
Qed.

(** C7. [sanitize_cr] replaces the value of a top-level ["secret"] key and
    of ["saml.signing.private.key"] inside an ["attributes"] mapping by the
    redaction marker and leaves the other entries as they are; every
    representation in [proposed], [existing], [end_state] and [diff] of a
    result has gone through it and shows neither value; on the object
    store it writes to new objects only, so that the dict it was given and
    the attributes dict it refers to are unchanged, and it computes what
    the function on values computes; and the merge and the comparison that
    decides [changed] are made on the unsanitized representations: in every
    update the call carries the merge of the realm as fetched with the
    changeset, [existing] and [end_state] are the sanitized forms of the
    fetched realms, and [changed] is false exactly when the fetched realms
    themselves (in check mode the fetched realm and the merged state) are
    structurally equal, so that a secret or a private key that differs is
    reported as a change although the result shows the same marker on both
    sides. *)
Theorem results_are_sanitized :
  (forall d d',
     sanitize_cr d = inr d' ->
     (dict_in "secret" d = true ->
      dict_get "secret" d' = Some (VStr redaction))
     /\ (forall a,
           dict_get "attributes" d = Some (VDict a) ->
           dict_in private_key a = true ->
           exists a',
             dict_get "attributes" d' = Some (VDict a')
             /\ dict_get private_key a' = Some (VStr redaction)
             /\ forall k, k <> private_key -> dict_get k a' = dict_get k a)
     /\ (forall k, k <> "secret" -> k <> "attributes" ->
                   dict_get k d' = dict_get k d)
     /\ redacted d' = true)
  /\ (forall E params check_mode _diff s r,
        outcome_of (run E params check_mode _diff s) = ExitJson r ->
        (sanitized (proposed r) /\ redacted (proposed r) = true)
        /\ (sanitized (existing r) /\ redacted (existing r) = true)
        /\ (sanitized (end_state r) /\ redacted (end_state r) = true)
        /\ (forall k x, dict_get k (diff r) = Some (VDict x) ->
                        sanitized x /\ redacted x = true))
  /\ (forall realmrep h out h',
        Heap.sanitize_cr realmrep h = Some (out, h') ->
        (forall l o, h !! l = Some o -> h' !! l = Some o)
        /\ (forall result, out = inr result -> h !! result = None))
  /\ (forall n h realmrep d,
        Heap.reify (S n) h (Heap.Ref realmrep) = Some (VDict d) ->
        exists out h',
          Heap.sanitize_cr realmrep h = Some (out, h')
          /\ match out with
             | inl e => sanitize_cr d = inl e
             | inr result =>
                 exists d',
                   Heap.reify (S n) h' (Heap.Ref result) = Some (VDict d')
                   /\ sanitize_cr d = inr d'
             end)
  /\ (forall E params _diff s c before_realm,
        let realm := params_get "realm" params in
        let desired_realm :=
          dict_update before_realm (build_changeset E params) in
        get_token E params = inr c ->
        get_realm_by_id E c realm s = ApiOk (Some before_realm) ->
        before_realm <> [] ->
        py_eq (params_get "state" params) (VStr "present") = true ->
        attributes_ok (build_changeset E params) = true ->
        attributes_ok before_realm = true ->
        wf_val (VDict before_realm) = true ->
        forallb (fun kv => wf_val (snd kv)) params = true ->
        (exists r,
           run E params true _diff s = (ExitJson r, s, [CallGet realm])
           /\ sanitize_cr before_realm = inr (existing r)
           /\ (changed r = false <->
               structurally_equal (VDict before_realm) (VDict desired_realm)))
        /\ (forall s' after_realm id,
              update_realm E c desired_realm realm s = ApiOk s' ->
              get_realm_by_id E c realm s' = ApiOk (Some after_realm) ->
              attributes_ok after_realm = true ->
              wf_val (VDict after_realm) = true ->
              dict_get "id" desired_realm = Some id ->
              exists r,
                run E params false _diff s =
                  (ExitJson r, s',
                   [CallGet realm; CallUpdate desired_realm realm;
                    CallGet realm])
                /\ sanitize_cr before_realm = inr (existing r)
                /\ sanitize_cr after_realm = inr (end_state r)
                /\ (changed r = false <->
                    structurally_equal (VDict before_realm)
                                       (VDict after_realm))
                /\ (forall v w,
                      dict_get "secret" before_realm = Some v ->
                      dict_get "secret" after_realm = Some w ->
                      ~ structurally_equal v w -> changed r = true)
                /\ (forall a a' v w,
                      dict_get "attributes" before_realm = Some (VDict a) ->
                      dict_get "attributes" after_realm = Some (VDict a') ->
                      dict_get private_key a = Some v ->
                      dict_get private_key a' = Some w ->
                      ~ structurally_equal v w -> changed r = true)))
  /\ (exists r,
        outcome_of (run Demo.env SamlDemo.params true true SamlDemo.server)
        = ExitJson r
        /\ dict_get "before" (diff r) = dict_get "after" (diff r)
        /\ changed r = true).
Proof.
  split; [|split; [|split; [|split; [|split]]]].
  - intros d d' H. split; [|split; [|split]].
    + now apply sanitize_cr_secret.
    + intros a Ha Hin. eexists. split; [|split].
      * eapply sanitize_cr_private_key; eassumption.
      * apply dict_get_set_eq.
      * intros k Hk. apply dict_get_set_ne. congruence.
    + intros k Hs Ha. now apply (sanitize_cr_other d).
    + now apply (sanitize_cr_redacted d).
  - intros E params check_mode _diff s r H.
    apply main_result_sanitized in H.
    destruct H as (Hp & He & Hs & Hd).
    assert (Hred : forall x, sanitized x -> redacted x = true)
      by (intros x [raw Hx]; now apply (sanitize_cr_redacted raw)).
    repeat split; auto. all: eapply Hd || eapply Hred, Hd; eassumption.
  - intros realmrep h out h' H.
    now apply heap_sanitize_cr_preserved in H.
  - intros n h realmrep d. apply heap_sanitize_cr_refines.
  - intros E params _diff s c before_realm realm desired_realm
      Htok Hget Hne Hstate Hcs Hbefore Hwf Hwfp.
    destruct (attributes_ok_sanitize _ Hcs) as [p Hp].
    destruct (attributes_ok_sanitize _ Hbefore) as [bs Hbs].
    destruct (desired_sanitizes E params before_realm Hcs Hbefore) as [ds Hds].
    split.
    + destruct (update_check_result E params _diff s c before_realm p bs ds
                  Htok Hget Hne Hstate Hp Hbs Hds)
        as (r & Hrun & Hch & _ & Hex).
      exists r. split; [exact Hrun|]. split; [now rewrite Hex|].
      apply dict_eq_structurally_equal; trivial. now apply wf_val_desired.
    + intros s' after_realm id Hup Hafter Hattrs Hwfa Hid.
      destruct (attributes_ok_sanitize _ Hattrs) as [es Hes].
      destruct (update_real_result E params _diff s s' c before_realm
                  after_realm p bs es id Htok Hget Hne Hstate Hp Hbs Hup
                  Hafter Hes Hid)
        as (r & Hrun & Hch & _ & Hex & Hend).
      pose proof (dict_eq_structurally_equal before_realm after_realm
                    (changed r) Hwf Hwfa Hch) as Hiff.
      exists r. split; [exact Hrun|]. split; [now rewrite Hex|].
      split; [now rewrite Hend|]. split; [exact Hiff|]. split.
      * intros v w Hv Hw Hvw. apply not_false_iff_true. intros Hf.
        apply Hvw, (structurally_equal_get before_realm after_realm "secret");
          trivial. now apply Hiff.
      * intros a a' v w Ha Ha' Hv Hw Hvw. apply not_false_iff_true. intros Hf.
        apply Hvw, (structurally_equal_get a a' private_key); trivial.
        apply (structurally_equal_get before_realm after_realm "attributes");
          trivial. now apply Hiff.
  - eexists. split; [reflexivity|]. split; reflexivity.
Qed.

Lemma results_are_sanitized_witness :
  exists r,
    run Demo.env SamlDemo.params false true SamlDemo.server
    = (ExitJson r,
       [("test", VDict [("id", VStr "test"); ("realm", VStr "test");
                        ("attributes", VDict [(private_key, VStr "NEW")])])],
       [CallGet (VStr "test");
        CallUpdate [("id", VStr "test"); ("realm", VStr "test");
                    ("attributes", VDict [(private_key, VStr "NEW")])]
                   (VStr "test");
        CallGet (VStr "test")])
    /\ redacted (end_state r) = true
    /\ existing r = end_state r
    /\ changed r = true.
Proof.
  destruct results_are_sanitized as (_ & Hres & _ & _ & Hcmp & _).
  assert (Hne : SamlDemo.realm <> []) by discriminate.
  destruct (Hcmp Demo.env SamlDemo.params true SamlDemo.server tt
              SamlDemo.realm eq_refl eq_refl Hne eq_refl eq_refl eq_refl
              eq_refl eq_refl) as [_ Hreal].
  destruct (Hreal _ _ (VStr "test") eq_refl eq_refl eq_refl eq_refl eq_refl)
    as (r & Hrun & Hex & Hend & _ & _ & Hkey).
  exists r. split; [exact Hrun|].
  destruct (Hres Demo.env SamlDemo.params false true SamlDemo.server r)
    as (_ & _ & [_ Hred] & _).
  { unfold outcome_of. now rewrite Hrun. }
  split; [exact Hred|]. split.
  - pose proof (eq_trans (eq_sym Hex) Hend) as Heq.
    now injection Heq.
  - apply (Hkey _ _ (VStr "OLD") (VStr "NEW") eq_refl eq_refl eq_refl eq_refl).
    inversion 1.
Defined.
